(** * godot-ai-helper: the file set and its linear undo/redo history

    A shallow embedding of the state kept by the [App] component
    (App.tsx), of the [Tools] action handler (components/Tools.tsx) and of
    the [FileExplorer] create form (components/FileExplorer.tsx), followed
    by the properties of the file-set + history model.

    Conventions of the embedding.
    - A React state cell is a record field; a handler is a function from
      the state of the render it was created in to the state after its
      queued updates are flushed.
    - A JavaScript string is a [string]; [===] on strings is [String.eqb].
    - A JavaScript array is a [list]; indexing [a[i]] is the partial lookup
      [a !! i], whose [None] is the JavaScript value [undefined].
    - [simpleId()] draws from [Math.random()]: the identifier it returns is
      an input of the handler that calls it. *)

From Stdlib Require Import String Ascii List Arith ZArith Bool Lia.
From stdpp Require Import base option list.

Open Scope string_scope.
Open Scope nat_scope.
Open Scope list_scope.

(** ** Strings *)

Module Js.

(** Characters the source writes with escapes. *)
Definition nl : string := String (ascii_of_nat 10) EmptyString.
Definition tab : string := String (ascii_of_nat 9) EmptyString.
Definition dquote : string := String (ascii_of_nat 34) EmptyString.

(** [s.endsWith(suffix)]. *)
Definition endsWith (s suffix : string) : bool :=
  let n := String.length s in
  let m := String.length suffix in
  (m <=? n) && String.eqb (substring (n - m) m s) suffix.

(** White space and line terminators removed by [String.prototype.trim],
    among the code units below 256: TAB, LF, VT, FF, CR, SPACE, NBSP. *)
Definition isWhiteSpace (c : ascii) : bool :=
  let n := nat_of_ascii c in
  ((9 <=? n) && (n <=? 13)) || (n =? 32) || (n =? 160).

Fixpoint trimStart (s : string) : string :=
  match s with
  | EmptyString => EmptyString
  | String c s' => if isWhiteSpace c then trimStart s' else s
  end.

(** The string without its trailing white space: a character is kept
    when it is not white space or when something is kept after it. *)
Fixpoint trimEnd (s : string) : string :=
  match s with
  | EmptyString => EmptyString
  | String c s' =>
      match trimEnd s' with
      | EmptyString => if isWhiteSpace c then EmptyString else String c EmptyString
      | t => String c t
      end
  end.

(** [s.trim()]. *)
Definition trim (s : string) : string := trimEnd (trimStart s).

(** Truthiness of a string: every string but the empty one. *)
Definition truthy (s : string) : bool :=
  match s with EmptyString => false | _ => true end.

(** [a || b] on strings. *)
Definition or_else (a b : string) : string := if truthy a then a else b.

End Js.

(** ** Data model (types.ts) *)

Inductive ToolMode := CODE_GEN | ASSET_GEN | PHYSICS | LOGIC | DEBUGGER | CHAT.

Inductive AssetOutputMode := script | image.

Inductive Language := gdscript | shader | json.

Record ProjectFile := mkFile {
  id : string;
  name : string;
  language : Language;
  content : string
}.

Record GeneratedCodeResponse := mkResponse {
  code : string;
  explanation_of : string
}.

(** A snapshot of the project: the value of the [files] array. *)
Abbreviation Snapshot := (list ProjectFile).

(** The object spread [{ ...f, content: newContent }]. *)
Definition withContent (newContent : string) (f : ProjectFile) : ProjectFile :=
  {| id := id f; name := name f; language := language f; content := newContent |}.

(** ** The state of [App] (App.tsx) *)

Definition INITIAL_CODE : string :=
  ("extends CharacterBody2D" ++ Js.nl ++
  Js.nl ++
  "const SPEED = 300.0" ++ Js.nl ++
  "const JUMP_VELOCITY = -400.0" ++ Js.nl ++
  Js.nl ++
  "var gravity = ProjectSettings.get_setting(" ++ Js.dquote ++
    "physics/2d/default_gravity" ++ Js.dquote ++ ")" ++ Js.nl ++
  Js.nl ++
  "func _physics_process(delta):" ++ Js.nl ++
  Js.tab ++ "if not is_on_floor():" ++ Js.nl ++
  Js.tab ++ Js.tab ++ "velocity.y += gravity * delta" ++ Js.nl ++
  Js.nl ++
  Js.tab ++ "if Input.is_action_just_pressed(" ++ Js.dquote ++ "ui_accept" ++
    Js.dquote ++ ") and is_on_floor():" ++ Js.nl ++
  Js.tab ++ Js.tab ++ "velocity.y = JUMP_VELOCITY" ++ Js.nl ++
  Js.nl ++
  Js.tab ++ "var direction = Input.get_axis(" ++ Js.dquote ++ "ui_left" ++
    Js.dquote ++ ", " ++ Js.dquote ++ "ui_right" ++ Js.dquote ++ ")" ++ Js.nl ++
  Js.tab ++ "if direction:" ++ Js.nl ++
  Js.tab ++ Js.tab ++ "velocity.x = direction * SPEED" ++ Js.nl ++
  Js.tab ++ "else:" ++ Js.nl ++
  Js.tab ++ Js.tab ++ "velocity.x = move_toward(velocity.x, 0, SPEED)" ++ Js.nl ++
  Js.nl ++
  Js.tab ++ "move_and_slide()" ++ Js.nl)%string.

Definition INITIAL_FILES : Snapshot :=
  [ {| id := "1"; name := "player.gd"; language := gdscript;
       content := INITIAL_CODE |};
    {| id := "2"; name := "game_manager.gd"; language := gdscript;
       content := ("extends Node" ++ Js.nl ++ Js.nl ++ "var score: int = 0" ++ Js.nl)%string |} ].

(** The state cells of [App] that the file set and its history live in;
    the chat cells ([chatHistory], [chatInput], [chatLoading]) are read and
    written by [handleChatSubmit] alone and are left out.
    [files] is an [option]: [undo] and [redo] store [history[newIndex]],
    which is [undefined] when [newIndex] is not a position of [history].
    [historyIndex] is a natural number: it starts at 0 and is only ever
    set to a length minus one after a push, decremented when positive, or
    incremented. *)
Record AppState := mkApp {
  mode : ToolMode;
  files : option Snapshot;
  activeFileId : string;
  explanation : string;
  generatedImage : option string;
  history : list Snapshot;
  historyIndex : nat
}.

Definition setFiles (v : option Snapshot) (s : AppState) : AppState :=
  {| mode := mode s; files := v; activeFileId := activeFileId s;
     explanation := explanation s; generatedImage := generatedImage s;
     history := history s; historyIndex := historyIndex s |}.

Definition setActiveFileId (v : string) (s : AppState) : AppState :=
  {| mode := mode s; files := files s; activeFileId := v;
     explanation := explanation s; generatedImage := generatedImage s;
     history := history s; historyIndex := historyIndex s |}.

Definition setExplanation (v : string) (s : AppState) : AppState :=
  {| mode := mode s; files := files s; activeFileId := activeFileId s;
     explanation := v; generatedImage := generatedImage s;
     history := history s; historyIndex := historyIndex s |}.

Definition setGeneratedImage (v : option string) (s : AppState) : AppState :=
  {| mode := mode s; files := files s; activeFileId := activeFileId s;
     explanation := explanation s; generatedImage := v;
     history := history s; historyIndex := historyIndex s |}.

Definition setHistory (v : list Snapshot) (s : AppState) : AppState :=
  {| mode := mode s; files := files s; activeFileId := activeFileId s;
     explanation := explanation s; generatedImage := generatedImage s;
     history := v; historyIndex := historyIndex s |}.

Definition setHistoryIndex (v : nat) (s : AppState) : AppState :=
  {| mode := mode s; files := files s; activeFileId := activeFileId s;
     explanation := explanation s; generatedImage := generatedImage s;
     history := history s; historyIndex := v |}.

(** The state of the first render, for a seed snapshot and an active id. *)
Definition seedState (seed : Snapshot) (active : string) : AppState :=
  {| mode := CODE_GEN; files := Some seed; activeFileId := active;
     explanation := EmptyString; generatedImage := None;
     history := [seed]; historyIndex := 0 |}.

Definition initialState : AppState := seedState INITIAL_FILES "1".

(** ** History (App.tsx, pushToHistory, undo, redo) *)

Definition pushToHistory (newFiles : Snapshot) (s : AppState) : AppState :=
  let newHistory := take (historyIndex s + 1) (history s) ++ [newFiles] in
  setFiles (Some newFiles)
    (setHistoryIndex (length newHistory - 1)
      (setHistory newHistory s)).

Definition undo (s : AppState) : AppState :=
  if 0 <? historyIndex s then
    let newIndex := historyIndex s - 1 in
    setFiles (history s !! newIndex) (setHistoryIndex newIndex s)
  else s.

(** The guard is the source's comparison on integers: [history.length - 1]
    is [-1] for an empty log. *)
Definition redo (s : AppState) : AppState :=
  if (Z.of_nat (historyIndex s) <? Z.of_nat (length (history s)) - 1)%Z then
    let newIndex := historyIndex s + 1 in
    setFiles (history s !! newIndex) (setHistoryIndex newIndex s)
  else s.

(** Sequences of history operations. *)
Inductive HistoryOp :=
| OpPush (newSnapshot : Snapshot)
| OpUndo
| OpRedo.

Definition applyOp (op : HistoryOp) (s : AppState) : AppState :=
  match op with
  | OpPush n => pushToHistory n s
  | OpUndo => undo s
  | OpRedo => redo s
  end.

Definition applyOps (ops : list HistoryOp) (s : AppState) : AppState :=
  fold_left (fun s op => applyOp op s) ops s.

(** ** File operations (App.tsx) *)

(** The outcome of an event handler. [Threw s] is an uncaught [TypeError]:
    [s] holds the state updates the handler had queued before it threw,
    which React still flushes. *)
Inductive Outcome :=
| Done (s : AppState)
| Threw (s : AppState).

(** The value of an expression that may throw a [TypeError]. *)
Inductive Js (A : Type) :=
| Val (a : A)
| TypeError.
Arguments Val {A} a.
Arguments TypeError {A}.

(** [fs.find(f => f.id === i)]; [None] is [undefined]. *)
Definition findById (i : string) (fs : Snapshot) : option ProjectFile :=
  List.find (fun f => String.eqb (id f) i) fs.

(** [files.find(f => f.id === activeFileId) || files[0]] on an array. *)
Definition resolveActiveFile (fs : Snapshot) (activeId : string) : option ProjectFile :=
  match findById activeId fs with
  | Some f => Some f
  | None => fs !! 0
  end.

(** The [activeFile] of a render; [Val None] is [undefined]. *)
Definition activeFile (s : AppState) : Js (option ProjectFile) :=
  match files s with
  | None => TypeError
  | Some fs => Val (resolveActiveFile fs (activeFileId s))
  end.

(** [fs.map(f => f.id === i ? { ...f, content: newContent } : f)]. *)
Definition updateFileContent (fs : Snapshot) (i newContent : string) : Snapshot :=
  List.map (fun f => if String.eqb (id f) i then withContent newContent f else f) fs.

Definition updateActiveFileContent (newContent : string) (s : AppState) : Outcome :=
  match files s with
  | None => Threw s
  | Some fs => Done (pushToHistory (updateFileContent fs (activeFileId s) newContent) s)
  end.

(** The file built by [handleFileCreate]; [newId] is the value of
    [simpleId()]. *)
Definition newFile (name0 newId : string) : ProjectFile :=
  {| id := newId;
     name := name0;
     language := if Js.endsWith name0 ".json" then json else gdscript;
     content := if Js.endsWith name0 ".json" then "{}"
                else ("extends Node" ++ Js.nl)%string |}.

(** [[...fs, newFile]]. *)
Definition createFile (fs : Snapshot) (name0 newId : string) : Snapshot :=
  fs ++ [newFile name0 newId].

Definition handleFileCreate (name0 newId : string) (s : AppState) : Outcome :=
  match files s with
  | None => Threw s
  | Some fs =>
      Done (setActiveFileId newId (pushToHistory (createFile fs name0 newId) s))
  end.

(** [fs.filter(f => f.id !== i)]. *)
Definition deleteFile (fs : Snapshot) (i : string) : Snapshot :=
  List.filter (fun f => negb (String.eqb (id f) i)) fs.

Definition handleFileDelete (i : string) (s : AppState) : Outcome :=
  match files s with
  | None => Threw s
  | Some fs =>
      if length fs <=? 1 then Done s
      else
        let updatedFiles := deleteFile fs i in
        let s1 := pushToHistory updatedFiles s in
        if String.eqb (activeFileId s) i then
          match updatedFiles !! 0 with
          | Some f0 => Done (setActiveFileId (id f0) s1)
          | None => Threw s1
          end
        else Done s1
  end.

(** [onFileSelect] as passed to [FileExplorer]. *)
Definition handleFileSelect (i : string) (s : AppState) : AppState :=
  setGeneratedImage None (setActiveFileId i s).

(** [onCodeUpdate] as passed to [Tools]. *)
Definition handleCodeUpdate (code0 : string) (s : AppState) : Outcome :=
  match updateActiveFileContent code0 s with
  | Done s' => Done (setGeneratedImage None s')
  | Threw s' => Threw s'
  end.

(** ** User events on [App] and their runs *)

Inductive Event :=
| FileCreate (name0 newId : string)
| FileSelect (i : string)
| FileDelete (i : string)
| SetCode (newContent : string)
| CodeUpdate (code0 : string)
| Undo
| Redo.

Definition step (e : Event) (s : AppState) : Outcome :=
  match e with
  | FileCreate n i => handleFileCreate n i s
  | FileSelect i => Done (handleFileSelect i s)
  | FileDelete i => handleFileDelete i s
  | SetCode c => updateActiveFileContent c s
  | CodeUpdate c => handleCodeUpdate c s
  | Undo => Done (undo s)
  | Redo => Done (redo s)
  end.

(** A run stops at the first handler that throws. *)
Fixpoint run (evs : list Event) (s : AppState) : Outcome :=
  match evs with
  | [] => Done s
  | e :: evs' =>
      match step e s with
      | Done s' => run evs' s'
      | Threw s' => Threw s'
      end
  end.

(** The state an outcome carries. *)
Definition stateOf (o : Outcome) : AppState :=
  match o with Done s => s | Threw s => s end.

(** The identifiers of a snapshot, in order. *)
Definition ids (fs : Snapshot) : list string := List.map id fs.

Definition hasId (i : string) (fs : Snapshot) : bool :=
  existsb (fun f => String.eqb (id f) i) fs.

(** The identifier drawn for a create is not an identifier of the visible
    snapshot. *)
Definition freshEvent (e : Event) (s : AppState) : bool :=
  match e, files s with
  | FileCreate _ i, Some fs => negb (hasId i fs)
  | _, _ => true
  end.

(** Every identifier drawn along the run is fresh when it is drawn. *)
Fixpoint freshRun (evs : list Event) (s : AppState) : bool :=
  match evs with
  | [] => true
  | e :: evs' =>
      freshEvent e s &&
      match step e s with
      | Done s' => freshRun evs' s'
      | Threw _ => true
      end
  end.

(** ** The create form of [FileExplorer] (components/FileExplorer.tsx) *)

Record ExplorerState := mkExplorer {
  isCreating : bool;
  newFileName : string
}.

(** [handleCreateSubmit]; [onFileCreate] is [handleFileCreate], and
    [newId] is what [simpleId()] returns if it is called. *)
Definition handleCreateSubmit (newId : string) (x : ExplorerState) (s : AppState)
  : ExplorerState * Outcome :=
  if Js.truthy (Js.trim (newFileName x)) then
    match handleFileCreate (Js.trim (newFileName x)) newId s with
    | Done s' => ({| isCreating := false; newFileName := EmptyString |}, Done s')
    | Threw s' => (x, Threw s')
    end
  else (x, Done s).

(** ** The action handler of [Tools] (components/Tools.tsx) *)

Record ToolsState := mkTools {
  prompt : string;
  referenceInput : string;
  loading : bool;
  errorInput : string;
  assetOutputMode : AssetOutputMode;
  selectedImage : option string
}.

Definition setLoading (v : bool) (t : ToolsState) : ToolsState :=
  {| prompt := prompt t; referenceInput := referenceInput t; loading := v;
     errorInput := errorInput t; assetOutputMode := assetOutputMode t;
     selectedImage := selectedImage t |}.

Inductive GenMode := physics | logic | general | asset.

(** The collaborator call a run of [handleAction] awaits, with the text it
    sends. *)
Inductive Call :=
| CallVisualAsset (effectivePrompt : string)
| CallAnalyzeError (errorLog code0 : string)
| CallGenerateCode (effectivePrompt : string) (genMode : GenMode).

(** What a rejected promise carries: an [Error] with its message, or any
    other value. *)
Inductive Thrown :=
| ErrorObject (message : string)
| NotAnError.

Inductive Settled (A : Type) :=
| Resolved (v : A)
| Rejected (e : Thrown).
Arguments Resolved {A} v.
Arguments Rejected {A} e.

(** The value each call resolves with: an image URL; [response.text],
    possibly [undefined]; for [generateGodotCode] the parsed JSON at its
    declared type [{ code: string; explanation: string }], or [None] when
    it is falsy. A parsed value that is truthy without a string [code],
    such as the object the service parses from its own fallback text for
    an empty response, is not a value of this type: what the handler
    writes for it ([content: undefined]) has no counterpart in
    [ProjectFile]. *)
Definition replyOf (c : Call) : Type :=
  match c with
  | CallVisualAsset _ => string
  | CallAnalyzeError _ _ => option string
  | CallGenerateCode _ _ => option GeneratedCodeResponse
  end.

(** The collaborator (services/gemini.ts) seen from the handler. *)
Definition Collaborator : Type := forall c : Call, Settled (replyOf c).

Definition isDebugger (m : ToolMode) : bool :=
  match m with DEBUGGER => true | _ => false end.

Definition truthyImage (o : option string) : bool :=
  match o with Some u => Js.truthy u | None => false end.

(** [customPrompt || prompt]. *)
Definition finalPromptOf (customPrompt : option string) (t : ToolsState) : string :=
  match customPrompt with
  | Some c => Js.or_else c (prompt t)
  | None => prompt t
  end.

(** The guard on the first line of [handleAction]: true when it returns. *)
Definition nothingToDo (customPrompt : option string) (m : ToolMode) (t : ToolsState) : bool :=
  negb (Js.truthy (Js.trim (finalPromptOf customPrompt t)))
  && negb (isDebugger m)
  && negb (Js.truthy (Js.trim (referenceInput t)))
  && negb (truthyImage (selectedImage t)).

(** [currentFile?.content || ''] for the files and id [Tools] was rendered
    with. *)
Definition currentFileContent (s : AppState) : string :=
  match files s with
  | Some fs =>
      match findById (activeFileId s) fs with
      | Some f => content f
      | None => EmptyString
      end
  | None => EmptyString
  end.

Definition genModeOf (m : ToolMode) : GenMode :=
  match m with
  | PHYSICS => physics
  | LOGIC => logic
  | ASSET_GEN => asset
  | _ => general
  end.

Definition effectivePromptOf (finalPrompt : string) (t : ToolsState) : string :=
  let p1 :=
    if negb (Js.truthy finalPrompt) && Js.truthy (referenceInput t)
    then "Replicate the functionality of the reference material in Godot 4."
    else finalPrompt in
  if negb (Js.truthy p1) && truthyImage (selectedImage t)
  then "Analyze this image and create the corresponding Godot 4 assets/scripts."
  else p1.

Definition callOf (customPrompt : option string) (s : AppState) (t : ToolsState) : Call :=
  let finalPrompt := finalPromptOf customPrompt t in
  match mode s, assetOutputMode t with
  | ASSET_GEN, image =>
      CallVisualAsset (Js.or_else finalPrompt "A high quality game asset.")
  | DEBUGGER, _ =>
      CallAnalyzeError (Js.or_else (errorInput t) finalPrompt) (currentFileContent s)
  | m, _ =>
      CallGenerateCode (effectivePromptOf finalPrompt t) (genModeOf m)
  end.

(** The part of [handleAction] before its [await]: [None] when the guard
    returns, else the call made and the state after [setLoading(true)] and
    [onExplanation('')]. *)
Definition handleActionStart (customPrompt : option string) (ui : AppState * ToolsState)
  : option (Call * (AppState * ToolsState)) :=
  let (s, t) := ui in
  if nothingToDo customPrompt (mode s) t then None
  else Some (callOf customPrompt s t, (setExplanation EmptyString s, setLoading true t)).

(** [onCodeUpdate] run after the [await]. The closure belongs to the render
    [cap] in which the action started: it reads [files], [activeFileId],
    [history] and [historyIndex] there, and its updates land on the state
    [cur] of the moment. *)
Definition codeUpdateFrom (cap : AppState) (code0 : string) (cur : AppState) : Outcome :=
  match files cap with
  | None => Threw cur
  | Some fs =>
      let newFiles := updateFileContent fs (activeFileId cap) code0 in
      let newHistory := take (historyIndex cap + 1) (history cap) ++ [newFiles] in
      Done (setGeneratedImage None
             (setFiles (Some newFiles)
               (setHistoryIndex (length newHistory - 1)
                 (setHistory newHistory cur))))
  end.

(** The text of [`Error: ${e instanceof Error ? e.message : '...'}`]. *)
Definition errorText (e : Thrown) : string :=
  ("Error: " ++ match e with
                | ErrorObject m => m
                | NotAnError => "Unknown error occurred"
                end)%string.

Section Settle.

(** The message of the [TypeError] an engine raises for reading a
    property of [undefined]. *)
Variable typeErrorMessage : string.

(** The part of [handleAction] after its [await]: the [try] body on a
    resolved promise, the [catch] on a rejected one, then [finally]. *)
Definition handleActionSettle (c : Call) (o : Settled (replyOf c))
    (cap : AppState) (cur : AppState * ToolsState) : AppState * ToolsState :=
  let (s, t) := cur in
  let s' :=
    match o with
    | Rejected e => setExplanation (errorText e) s
    | Resolved v =>
        match c return replyOf c -> AppState with
        | CallVisualAsset p => fun imageUrl =>
            setExplanation ("Generated visual asset based on: " ++ p)%string
              (setGeneratedImage (Some imageUrl) s)
        | CallAnalyzeError _ _ => fun analysis =>
            setExplanation
              (Js.or_else (default EmptyString analysis) "No analysis returned.") s
        | CallGenerateCode _ _ => fun result =>
            match result with
            | None => s
            | Some r =>
                match codeUpdateFrom cap (code r) s with
                | Done s1 => setExplanation (explanation_of r) s1
                | Threw s1 => setExplanation (errorText (ErrorObject typeErrorMessage)) s1
                end
            end
        end v
    end in
  (s', setLoading false t).

(** A whole run of [handleAction] with nothing interleaved between its
    two parts. *)
Definition handleAction (customPrompt : option string) (collaborator : Collaborator)
    (ui : AppState * ToolsState) : AppState * ToolsState :=
  match handleActionStart customPrompt ui with
  | None => ui
  | Some (c, ui1) => handleActionSettle c (collaborator c) (fst ui) ui1
  end.

End Settle.

(** ** Keyboard shortcuts and history buttons (App.tsx) *)

Record KeyboardEvent := mkKey {
  metaKey : bool;
  ctrlKey : bool;
  shiftKey : bool;
  key : string
}.

(** [handleKeyDown]: the flag tells whether [preventDefault] was called.
    The listener is registered anew whenever [historyIndex] or [history]
    change, so it runs [undo] and [redo] of the current render. *)
Definition handleKeyDown (e : KeyboardEvent) (s : AppState) : bool * AppState :=
  if (metaKey e || ctrlKey e) && String.eqb (key e) "z" then
    (true, if shiftKey e then redo s else undo s)
  else if (metaKey e || ctrlKey e) && String.eqb (key e) "y" then
    (true, redo s)
  else (false, s).

(** [disabled={historyIndex <= 0}] on the undo button. *)
Definition undoDisabled (s : AppState) : bool := historyIndex s <=? 0.

(** [disabled={historyIndex >= history.length - 1}] on the redo button. *)
Definition redoDisabled (s : AppState) : bool :=
  (Z.of_nat (historyIndex s) >=? Z.of_nat (length (history s)) - 1)%Z.

(** [files.length > 1]: whether [FileExplorer] renders the delete buttons. *)
Definition deleteShown (fs : Snapshot) : bool := 1 <? length fs.

(** [disabled] on the main button of [Tools]. *)
Definition actionDisabled (m : ToolMode) (t : ToolsState) : bool :=
  loading t ||
  ((negb (Js.truthy (prompt t)) && negb (Js.truthy (referenceInput t))
    && negb (truthyImage (selectedImage t)))
   && negb (isDebugger m)).

(** ** The reference image sent with a request (components/Tools.tsx) *)

(** [s.split(sep)] for a separator of one character. *)
Fixpoint splitOn (sep : ascii) (s : string) : list string :=
  match s with
  | EmptyString => [EmptyString]
  | String c s' =>
      if Ascii.eqb c sep then EmptyString :: splitOn sep s'
      else match splitOn sep s' with
           | h :: t => String c h :: t
           | [] => [String c EmptyString]
           end
  end.

Definition comma : ascii := ascii_of_nat 44.

(** [rawBase64] in [handleAction]: [selectedImage.split(',')[1]] when an
    image is selected, else [undefined]. *)
Definition rawBase64Of (selectedImage0 : option string) : option string :=
  match selectedImage0 with
  | Some u => if Js.truthy u then splitOn comma u !! 1 else None
  | None => None
  end.

(** ** The chat panel (App.tsx, handleChatSubmit) *)

Module Chat.

Inductive Role := user | model.

Record Message := mkMessage {
  role : Role;
  content : string
}.

Record State := mkState {
  chatHistory : list Message;
  chatInput : string;
  chatLoading : bool
}.

(** The first message of the transcript. *)
Definition greeting : Message :=
  {| role := model;
     content := "Hello. I am your Godot Architect. I can see all your project files. How can I assist you?" |}.

Definition initial : State :=
  {| chatHistory := [greeting]; chatInput := EmptyString; chatLoading := false |}.

(** What [chatWithGemini] is called with: the transcript and the input of
    the render in which the form was submitted. *)
Record Request := mkRequest {
  sentHistory : list Message;
  newMessage : string
}.

(** The part of [handleChatSubmit] before its [await]: [None] when the
    guard returns. *)
Definition submitStart (c : State) : option (Request * State) :=
  if negb (Js.truthy (Js.trim (chatInput c))) || chatLoading c then None
  else
    Some ({| sentHistory := chatHistory c; newMessage := chatInput c |},
          {| chatHistory := chatHistory c ++ [{| role := user; content := chatInput c |}];
             chatInput := EmptyString;
             chatLoading := true |}).

(** The message appended when the call settles; [response.text] may be
    [undefined]. *)
Definition replyMessage (o : Settled (option string)) : Message :=
  match o with
  | Resolved responseText =>
      {| role := model;
         content := Js.or_else (default EmptyString responseText)
                      "I couldn't generate a response." |}
  | Rejected _ => {| role := model; content := "Error communicating with Gemini." |}
  end.

(** The part after the [await]: the transcript is updated through
    [prev => [...prev, msg]], so on the state of the moment. *)
Definition submitSettle (o : Settled (option string)) (c : State) : State :=
  {| chatHistory := chatHistory c ++ [replyMessage o];
     chatInput := chatInput c;
     chatLoading := false |}.

(** A whole submission with nothing interleaved; [reply] is how
    [chatWithGemini] settles on the request made. *)
Definition handleChatSubmit (reply : Request -> Settled (option string)) (c : State) : State :=
  match submitStart c with
  | None => c
  | Some (q, c1) => submitSettle (reply q) c1
  end.

End Chat.

(** ** The service layer (services/gemini.ts) *)

Module Gemini.

Record InlineData := mkInline {
  mimeType : string;
  data : string
}.

(** A part of a request. *)
Inductive Part :=
| TextPart (text : string)
| InlinePart (d : InlineData).

(** [contentParts] of [generateVisualAsset]. *)
Definition visualAssetParts (prompt0 : string) (referenceImageBase64 : option string)
  : list Part :=
  match referenceImageBase64 with
  | Some img =>
      if Js.truthy img then
        [ InlinePart {| mimeType := "image/jpeg"; data := img |};
          TextPart ("Create a game asset texture/sprite based on this reference: " ++ prompt0)%string ]
      else [ TextPart ("Create a game asset texture/sprite: " ++ prompt0)%string ]
  | None => [ TextPart ("Create a game asset texture/sprite: " ++ prompt0)%string ]
  end.

(** [`data:${mimeType};base64,${data}`]. *)
Definition dataUrl (d : InlineData) : string :=
  ("data:" ++ mimeType d ++ ";base64," ++ data d)%string.

(** The loop over [response.candidates?.[0]?.content?.parts || []]: each
    part is given by its [inlineData], [None] when it has none. *)
Fixpoint extractImage (parts : list (option InlineData)) : Settled string :=
  match parts with
  | [] => Rejected (ErrorObject "No image data received in response.")
  | Some d :: _ => Resolved (dataUrl d)
  | None :: rest => extractImage rest
  end.

(** [generateVisualAsset]. [apiKey] is [process.env.API_KEY || '']; [sdk]
    is how [ai.models.generateContent] settles on the parts sent. *)
Definition generateVisualAsset (apiKey : string)
    (sdk : list Part -> Settled (list (option InlineData)))
    (prompt0 : string) (referenceImageBase64 : option string) : Settled string :=
  if negb (Js.truthy apiKey) then Rejected (ErrorObject "API Key missing")
  else
    match sdk (visualAssetParts prompt0 referenceImageBase64) with
    | Resolved parts => extractImage parts
    | Rejected e => Rejected e
    end.

(** [otherFiles] of [generateGodotCode]. *)
Definition otherFiles (projectFiles : Snapshot) (activeId : string) : Snapshot :=
  List.filter (fun f => negb (String.eqb (id f) activeId)) projectFiles.

(** [`--- FILE: ${f.name} ---\n${f.content}\n\n`]. *)
Definition fileSection (f : ProjectFile) : string :=
  ("--- FILE: " ++ name f ++ " ---" ++ Js.nl ++ content f ++ Js.nl ++ Js.nl)%string.

(** [projectContextStr] of [generateGodotCode]: the [forEach] appends a
    section per other file to the header. *)
Definition projectContextStr (projectFiles : Snapshot) (activeId : string) : string :=
  match otherFiles projectFiles activeId with
  | [] => EmptyString
  | others =>
      fold_left (fun acc f => (acc ++ fileSection f)%string) others
        ("OTHER PROJECT FILES (Read-Only Context):" ++ Js.nl)%string
  end.

(** [activeFile?.name || 'unknown_script.gd'] in the prompt. *)
Definition activeFileName (projectFiles : Snapshot) (activeId : string) : string :=
  match findById activeId projectFiles with
  | Some f => Js.or_else (name f) "unknown_script.gd"
  | None => "unknown_script.gd"
  end.

(** [`--- ${f.name} ---\n${f.content}\n\n`] of [chatWithGemini]. *)
Definition chatSection (f : ProjectFile) : string :=
  ("--- " ++ name f ++ " ---" ++ Js.nl ++ content f ++ Js.nl ++ Js.nl)%string.

(** [projectContextStr] of [chatWithGemini]. *)
Definition chatContextStr (projectFiles : Snapshot) : string :=
  fold_left (fun acc f => (acc ++ chatSection f)%string) projectFiles
    ("PROJECT FILES:" ++ Js.nl)%string.

End Gemini.

(** The collaborator as the service layer makes it: every exported call
    starts with [if (!apiKey) throw new Error("API Key missing")]; [backend]
    is how the rest of each call settles. *)
Definition keyedCollaborator (apiKey : string) (backend : Collaborator) : Collaborator :=
  fun c => if Js.truthy apiKey then backend c
           else Rejected (ErrorObject "API Key missing").

(** ** Invariants *)

(** The cursor points into the log, at the visible snapshot. *)
Definition historyInv (s : AppState) : Prop :=
  history s <> [] /\
  historyIndex s < length (history s) /\
  exists snap, history s !! historyIndex s = Some snap /\ files s = Some snap.

(** A snapshot has a file, and no two of its files share an identifier. *)
Definition snapshotOk (fs : Snapshot) : Prop :=
  fs <> [] /\ NoDup (ids fs).

(** [historyInv] with every logged snapshot well formed. *)
Definition projectInv (s : AppState) : Prop :=
  historyIndex s < length (history s) /\
  files s = history s !! historyIndex s /\
  Forall snapshotOk (history s).

(** ** Sample data for the examples *)

Definition fileA : ProjectFile :=
  {| id := "1"; name := "player.gd"; language := gdscript; content := "A" |}.

Definition fileB : ProjectFile := withContent "B" fileA.

Definition fileC : ProjectFile :=
  {| id := "2"; name := "enemy.gd"; language := gdscript; content := "C" |}.

(** A log of three entries with the cursor in the middle. *)
Definition midState : AppState :=
  undo (pushToHistory [fileB; fileC] (pushToHistory [fileB] (seedState [fileA] "1"))).

(** The create form with a typed name, and with blanks only. *)
Definition formJson : ExplorerState :=
  {| isCreating := true; newFileName := "  level.json " |}.

Definition formScript : ExplorerState :=
  {| isCreating := true; newFileName := "enemy.gd" |}.

Definition formBlank : ExplorerState :=
  {| isCreating := true; newFileName := ("   " ++ Js.tab)%string |}.

(** The tools panel with a prompt typed in, and a collaborator without
    its API key: every call rejects. *)
Definition toolsReady : ToolsState :=
  {| prompt := "Add a dash ability"; referenceInput := EmptyString;
     loading := false; errorInput := EmptyString;
     assetOutputMode := script; selectedImage := None |}.

Definition keylessCollaborator : Collaborator :=
  fun _ => Rejected (ErrorObject "API Key missing").

(** Sessions on the initial project. The ids are strings of the shape
    [simpleId()] produces: up to nine digits in base 36. *)

(** A session whose drawn ids are all fresh: it ends by deleting the
    active file. *)
Definition freshSession : list Event :=
  [ FileCreate "enemy.gd" "k3x9q0z1a"; SetCode "extends Node2D";
    FileCreate "level.json" "p7m2c4w8e"; Undo; Redo;
    FileSelect "1"; FileDelete "1" ].

(** Creating a file and undoing it. *)
Definition createThenUndo : list Event :=
  [ FileCreate "enemy.gd" "k3x9q0z1a"; Undo ].

(** Two creates for which [simpleId()] returns the same string. *)
Definition collidingCreates : list Event :=
  [ FileCreate "enemy.gd" "k3x9q0z1a"; FileCreate "level.json" "k3x9q0z1a" ].

(** The same collision, after which the other files are deleted and then
    the active file, which carries the colliding id. *)
Definition collidingDeletes : list Event :=
  collidingCreates ++ [ FileDelete "1"; FileDelete "2"; FileDelete "k3x9q0z1a" ].

(** The same collision, after which the other files are deleted, a third
    file is created and its creation undone, and the colliding id is
    deleted. *)
Definition collidingSession : list Event :=
  collidingCreates ++
  [ FileDelete "1"; FileDelete "2"; FileCreate "hud.gd" "p7m2c4w8e"; Undo;
    FileDelete "k3x9q0z1a" ].

(** * Properties *)

(** ** History *)

Section History.

Implicit Types (s : AppState) (n : Snapshot).

Lemma pushToHistory_history n s :
  history (pushToHistory n s) = take (historyIndex s + 1) (history s) ++ [n].
Proof. reflexivity. Qed.

Lemma pushToHistory_index n s :
  historyIndex (pushToHistory n s) = length (take (historyIndex s + 1) (history s)).
Proof.
  unfold pushToHistory; simpl. rewrite length_app; simpl. lia.
Qed.

Lemma pushToHistory_files n s : files (pushToHistory n s) = Some n.
Proof. reflexivity. Qed.

Lemma pushToHistory_lookup n s :
  history (pushToHistory n s) !! historyIndex (pushToHistory n s) = Some n.
Proof.
  rewrite pushToHistory_index, pushToHistory_history.
  apply list_lookup_middle. reflexivity.
Qed.

Lemma pushToHistory_inv n s : historyInv (pushToHistory n s).
Proof.
  repeat split.
  - rewrite pushToHistory_history. intros H. apply app_eq_nil in H as [_ H]. discriminate.
  - apply lookup_lt_is_Some. rewrite pushToHistory_lookup. eauto.
  - exists n. split; [apply pushToHistory_lookup | reflexivity].
Qed.

Lemma undo_pos s :
  0 < historyIndex s ->
  undo s = setFiles (history s !! (historyIndex s - 1))
             (setHistoryIndex (historyIndex s - 1) s).
Proof.
  intros H. unfold undo. apply Nat.ltb_lt in H. rewrite H. reflexivity.
Qed.

Lemma undo_zero s : historyIndex s = 0 -> undo s = s.
Proof. intros H. unfold undo. rewrite H. reflexivity. Qed.

Lemma redo_inner s :
  (Z.of_nat (historyIndex s) < Z.of_nat (length (history s)) - 1)%Z ->
  redo s = setFiles (history s !! (historyIndex s + 1))
             (setHistoryIndex (historyIndex s + 1) s).
Proof.
  intros H. unfold redo. apply Z.ltb_lt in H. rewrite H. reflexivity.
Qed.

Lemma redo_tail s :
  ~ (Z.of_nat (historyIndex s) < Z.of_nat (length (history s)) - 1)%Z ->
  redo s = s.
Proof.
  intros H. unfold redo. apply Z.ltb_nlt in H. rewrite H. reflexivity.
Qed.

Lemma undo_inv s : historyInv s -> historyInv (undo s).
Proof.
  intros (Hne & Hlt & snap & Hsnap & Hfiles).
  destruct (Nat.eq_dec (historyIndex s) 0) as [H0 | H0].
  - rewrite undo_zero by assumption. repeat split; eauto.
  - rewrite undo_pos by lia.
    assert (Hk : historyIndex s - 1 < length (history s)) by lia.
    apply lookup_lt_is_Some in Hk as [prev Hprev].
    repeat split; simpl; [assumption | lia | eauto].
Qed.

Lemma redo_inv s : historyInv s -> historyInv (redo s).
Proof.
  intros (Hne & Hlt & snap & Hsnap & Hfiles).
  destruct (Z_lt_dec (Z.of_nat (historyIndex s))
              (Z.of_nat (length (history s)) - 1)) as [H | H].
  - rewrite redo_inner by assumption.
    assert (Hk : historyIndex s + 1 < length (history s)) by lia.
    apply lookup_lt_is_Some in Hk as [next Hnext].
    repeat split; simpl; [assumption | lia | eauto].
  - rewrite redo_tail by assumption. repeat split; eauto.
Qed.

Lemma applyOp_inv op s : historyInv s -> historyInv (applyOp op s).
Proof.
  destruct op; simpl; intros H.
  - apply pushToHistory_inv.
  - apply undo_inv, H.
  - apply redo_inv, H.
Qed.

Lemma seedState_inv seed active : historyInv (seedState seed active).
Proof.
  repeat split; simpl; [discriminate | lia | eauto].
Qed.

Lemma applyOps_inv ops : forall s, historyInv s -> historyInv (applyOps ops s).
Proof.
  induction ops as [| op ops IH]; intros s H; simpl; [assumption |].
  apply IH, applyOp_inv, H.
Qed.

(** C1. From the initial state, a log holding the seed snapshot alone
    with the cursor at 0, every sequence of pushes, undos and redos
    leaves the log non-empty, the cursor inside the log, and the
    snapshot under the cursor equal to the visible file list. The
    statement covers every prefix of a run, hence the state after each
    operation. *)
Theorem history_cursor_invariant (seed : Snapshot) (active : string)
    (ops : list HistoryOp) :
  let s := applyOps ops (seedState seed active) in
  history s <> [] /\
  0 <= historyIndex s < length (history s) /\
  exists snap, history s !! historyIndex s = Some snap /\ files s = Some snap.
Proof.
  destruct (applyOps_inv ops _ (seedState_inv seed active)) as (Hne & Hlt & Hsnap).
  simpl. repeat split; [assumption | lia | assumption | assumption].
Qed.

End History.

Section Push.

Implicit Types (s : AppState) (A B n : Snapshot).

Lemma pushToHistory_kept n s k x :
  k <= historyIndex s -> history s !! k = Some x ->
  history (pushToHistory n s) !! k = Some x.
Proof.
  intros Hk Hx. rewrite pushToHistory_history.
  apply lookup_app_l_Some. rewrite lookup_take_lt by lia. exact Hx.
Qed.

Lemma pushToHistory_length n s :
  length (history (pushToHistory n s)) =
  Nat.min (historyIndex s + 1) (length (history s)) + 1.
Proof.
  rewrite pushToHistory_history, length_app, length_take. reflexivity.
Qed.

Lemma redo_after_push n s : redo (pushToHistory n s) = pushToHistory n s.
Proof.
  apply redo_tail. rewrite pushToHistory_index, pushToHistory_history.
  rewrite length_app. simpl. lia.
Qed.

Lemma redo_iter_after_push n s k :
  Nat.iter k redo (pushToHistory n s) = pushToHistory n s.
Proof.
  induction k as [| k IH]; simpl; [reflexivity |].
  rewrite IH. apply redo_after_push.
Qed.

(** Pushing, undoing and pushing again on a non-empty log keeps the
    entries up to the cursor and replaces the first push by the second. *)
Lemma push_undo_push_history A B s :
  history s <> [] ->
  history (pushToHistory B (undo (pushToHistory A s))) =
  take (historyIndex s + 1) (history s) ++ [B].
Proof.
  intros Hne.
  assert (Hlen : 0 < length (history s)) by (destruct (history s); simpl; [congruence | lia]).
  assert (Hpos : 0 < historyIndex (pushToHistory A s)).
  { rewrite pushToHistory_index, length_take. lia. }
  rewrite pushToHistory_history, undo_pos by exact Hpos. simpl.
  rewrite length_app. simpl.
  replace (length (take (historyIndex s + 1) (history s)) + 1 - 1 - 1 + 1)
    with (length (take (historyIndex s + 1) (history s)))
    by (rewrite length_take; lia).
  rewrite take_app_length. reflexivity.
Qed.

(** C2. A push keeps the log entries at positions [0..index], appends
    the new snapshot as the last entry, moves the cursor to that last
    position and makes the new snapshot the visible state. Hence, on
    every non-empty log, after push(A), undo, push(B) the log is the
    kept entries followed by B: the entry made for A is gone (A occurs
    in the log only as far as it equals B or an entry kept from before),
    and redo, any number of times, changes nothing and leaves B
    visible. *)
Theorem push_truncates_and_discards_branch (A B : Snapshot) (s : AppState) :
  let s1 := pushToHistory A s in
  let s3 := pushToHistory B (undo s1) in
  (* the push *)
  (forall k x, k <= historyIndex s -> history s !! k = Some x ->
               history s1 !! k = Some x) /\
  length (history s1) = Nat.min (historyIndex s + 1) (length (history s)) + 1 /\
  last (history s1) = Some A /\
  historyIndex s1 = length (history s1) - 1 /\
  history s1 !! historyIndex s1 = Some A /\
  files s1 = Some A /\
  (* the discarded branch *)
  (history s <> [] ->
     history s3 = take (historyIndex s + 1) (history s) ++ [B] /\
     historyIndex s3 = historyIndex s1 /\
     history s3 !! historyIndex s1 = Some B /\
     length (history s3) = length (history s1) /\
     files s3 = Some B /\
     (A <> B -> (A ∉ take (historyIndex s + 1) (history s)) -> (A ∉ history s3)) /\
     (forall k, Nat.iter k redo s3 = s3)).
Proof.
  intros s1 s3. subst s1 s3.
  split; [intros k x; apply pushToHistory_kept |].
  split; [apply pushToHistory_length |].
  split; [rewrite pushToHistory_history; apply last_snoc |].
  split; [rewrite pushToHistory_index, pushToHistory_history, length_app; simpl; lia |].
  split; [apply pushToHistory_lookup |].
  split; [reflexivity |].
  intros Hne.
  pose proof (push_undo_push_history A B s Hne) as Hh.
  assert (Hidx : historyIndex (pushToHistory B (undo (pushToHistory A s))) =
                 historyIndex (pushToHistory A s)).
  { rewrite (pushToHistory_index A s), pushToHistory_index.
    rewrite pushToHistory_history in Hh.
    apply app_inv_tail in Hh. rewrite Hh. reflexivity. }
  split; [exact Hh |].
  split; [exact Hidx |].
  split; [rewrite <- Hidx; apply pushToHistory_lookup |].
  split; [rewrite Hh, pushToHistory_history, !length_app; reflexivity |].
  split; [reflexivity |].
  split.
  - intros HAB Hold. rewrite Hh. intros Hin.
    apply elem_of_app in Hin as [Hin | Hin]; [exact (Hold Hin) |].
    apply list_elem_of_singleton in Hin. exact (HAB Hin).
  - intros k. apply redo_iter_after_push.
Qed.

End Push.

(** One run of push(A), undo, push(B) from the initial state. *)
Lemma push_truncates_and_discards_branch_witness :
  history initialState <> [] /\
  [fileA] <> [fileB] /\
  ([fileA] ∉ take (historyIndex initialState + 1) (history initialState)) /\
  history (pushToHistory [fileB] (undo (pushToHistory [fileA] initialState)))
    = [INITIAL_FILES; [fileB]] /\
  ([fileA] ∉ history (pushToHistory [fileB] (undo (pushToHistory [fileA] initialState)))).
Proof.
  assert (Hne : history initialState <> []) by discriminate.
  assert (HAB : [fileA] <> [fileB]) by discriminate.
  assert (Hold : [fileA] ∉ take (historyIndex initialState + 1) (history initialState)).
  { simpl. intros H. apply list_elem_of_singleton in H. discriminate. }
  destruct (push_truncates_and_discards_branch [fileA] [fileB] initialState)
    as (_ & _ & _ & _ & _ & _ & Hbranch).
  destruct (Hbranch Hne) as (Hh & _ & _ & _ & _ & Hgone & _).
  split; [exact Hne |].
  split; [exact HAB |].
  split; [exact Hold |].
  split; [exact Hh | exact (Hgone HAB Hold)].
Defined.

Section UndoRedo.

Implicit Types (s : AppState).

(** C3. On every history state: undo with index > 0 moves the cursor
    down by one and shows the entry under it, and changes nothing at
    index 0; redo with index < length(log) - 1 moves the cursor up by
    one and shows the entry under it, and changes nothing otherwise, in
    particular at the tail. Neither touches the log. *)
Theorem undo_redo_move_cursor (s : AppState) :
  (0 < historyIndex s ->
     historyIndex (undo s) = historyIndex s - 1 /\
     files (undo s) = history (undo s) !! historyIndex (undo s) /\
     history (undo s) = history s /\
     activeFileId (undo s) = activeFileId s) /\
  (historyIndex s = 0 -> undo s = s) /\
  ((Z.of_nat (historyIndex s) < Z.of_nat (length (history s)) - 1)%Z ->
     historyIndex (redo s) = historyIndex s + 1 /\
     files (redo s) = history (redo s) !! historyIndex (redo s) /\
     history (redo s) = history s /\
     activeFileId (redo s) = activeFileId s) /\
  (~ (Z.of_nat (historyIndex s) < Z.of_nat (length (history s)) - 1)%Z ->
     redo s = s) /\
  (Z.of_nat (historyIndex s) = (Z.of_nat (length (history s)) - 1)%Z ->
     redo s = s).
Proof.
  split; [intros H; rewrite (undo_pos s H); repeat split |].
  split; [apply undo_zero |].
  split; [intros H; rewrite (redo_inner s H); repeat split |].
  split; [apply redo_tail |].
  intros H. apply redo_tail. lia.
Qed.

End UndoRedo.

(** Undo and redo in the middle of a three-entry log, and at its ends. *)
Lemma undo_redo_move_cursor_witness :
  (0 < historyIndex midState /\ files (undo midState) = Some [fileA]) /\
  (historyIndex (undo midState) = 0 /\ undo (undo midState) = undo midState) /\
  ((Z.of_nat (historyIndex midState) < Z.of_nat (length (history midState)) - 1)%Z /\
   files (redo midState) = Some [fileB; fileC]) /\
  (Z.of_nat (historyIndex (redo midState)) =
     (Z.of_nat (length (history (redo midState))) - 1)%Z /\
   redo (redo midState) = redo midState).
Proof.
  assert (H1 : 0 < historyIndex midState) by (vm_compute; lia).
  assert (H2 : historyIndex (undo midState) = 0) by reflexivity.
  assert (H3 : (Z.of_nat (historyIndex midState) <
                Z.of_nat (length (history midState)) - 1)%Z) by (vm_compute; reflexivity).
  assert (H4 : Z.of_nat (historyIndex (redo midState)) =
               (Z.of_nat (length (history (redo midState))) - 1)%Z) by reflexivity.
  destruct (undo_redo_move_cursor midState) as (Hu & _ & Hr & _ & _).
  destruct (undo_redo_move_cursor (undo midState)) as (_ & Hu0 & _ & _ & _).
  destruct (undo_redo_move_cursor (redo midState)) as (_ & _ & _ & _ & Hr1).
  destruct (Hu H1) as (_ & Hfu & _ & _).
  destruct (Hr H3) as (_ & Hfr & _ & _).
  split; [split; [exact H1 | rewrite Hfu; reflexivity] |].
  split; [split; [exact H2 | exact (Hu0 H2)] |].
  split; [split; [exact H3 | rewrite Hfr; reflexivity] |].
  split; [exact H4 | exact (Hr1 H4)].
Defined.

(** ** Deleting and updating files *)

Section FileOps.

Implicit Types (s : AppState) (fs : Snapshot) (f : ProjectFile) (i c : string).

(** C4. On a snapshot of exactly one file, deleting any id is refused:
    the handler returns the state it was given, so the file list still
    has its one file and the log has no new entry. *)
Theorem delete_last_file_refused (f : ProjectFile) (i : string) (s : AppState) :
  files s = Some [f] ->
  handleFileDelete i s = Done s /\
  (forall s', handleFileDelete i s = Done s' ->
     files s' = Some [f] /\
     history s' = history s /\
     historyIndex s' = historyIndex s /\
     activeFileId s' = activeFileId s).
Proof.
  intros Hf.
  assert (H : handleFileDelete i s = Done s).
  { unfold handleFileDelete. rewrite Hf. reflexivity. }
  split; [exact H |].
  intros s' Hs'. rewrite H in Hs'. injection Hs' as <-. auto.
Qed.

Lemma updateFileContent_length fs i c :
  length (updateFileContent fs i c) = length fs.
Proof. apply length_map. Qed.

Lemma updateFileContent_lookup fs i c k :
  updateFileContent fs i c !! k =
  (fun f => if String.eqb (id f) i then withContent c f else f) <$> fs !! k.
Proof. unfold updateFileContent. apply list_lookup_fmap. Qed.

Lemma updateFileContent_ids fs i c : ids (updateFileContent fs i c) = ids fs.
Proof.
  unfold ids, updateFileContent. rewrite List.map_map.
  apply List.map_ext. intros f. destruct (String.eqb (id f) i); reflexivity.
Qed.

Lemma updateFileContent_absent fs i c :
  ~ In i (ids fs) -> updateFileContent fs i c = fs.
Proof.
  induction fs as [| f fs IH]; simpl; intros H; [reflexivity |].
  destruct (String.eqb_spec (id f) i) as [E | E].
  - exfalso. apply H. left. exact E.
  - f_equal. apply IH. intros Hin. apply H. right. exact Hin.
Qed.

(** C5. Updating the content for an id keeps the number and the order
    of the files; at every position, a file with another id is the same
    file, and a file with that id keeps its id, name and language and
    gets the new content. When no file has the id, the resulting list
    equals the input. *)
Theorem update_changes_only_target_content (fs : Snapshot) (i c : string) :
  length (updateFileContent fs i c) = length fs /\
  (forall k, is_Some (updateFileContent fs i c !! k) <-> is_Some (fs !! k)) /\
  (forall k f, fs !! k = Some f -> id f <> i ->
     updateFileContent fs i c !! k = Some f) /\
  (forall k f, fs !! k = Some f -> id f = i ->
     exists f', updateFileContent fs i c !! k = Some f' /\
       id f' = id f /\ name f' = name f /\ language f' = language f /\
       content f' = c) /\
  (~ In i (ids fs) -> updateFileContent fs i c = fs).
Proof.
  split; [apply updateFileContent_length |].
  split.
  { intros k. rewrite updateFileContent_lookup. apply fmap_is_Some. }
  split.
  { intros k f Hk Hne. rewrite updateFileContent_lookup, Hk. simpl.
    destruct (String.eqb_spec (id f) i); [contradiction | reflexivity]. }
  split.
  { intros k f Hk He. rewrite updateFileContent_lookup, Hk. simpl.
    apply String.eqb_eq in He. rewrite He.
    exists (withContent c f). repeat split. }
  apply updateFileContent_absent.
Qed.

(** The handler applies [updateFileContent] for the active id and logs
    the result as one entry. *)
Lemma updateActiveFileContent_ok c s fs :
  files s = Some fs ->
  updateActiveFileContent c s =
    Done (pushToHistory (updateFileContent fs (activeFileId s) c) s).
Proof. intros H. unfold updateActiveFileContent. rewrite H. reflexivity. Qed.

End FileOps.

(** Deleting from the one-file project is refused. *)
Lemma delete_last_file_refused_witness :
  files (seedState [fileA] "1") = Some [fileA] /\
  handleFileDelete "1" (seedState [fileA] "1") = Done (seedState [fileA] "1").
Proof.
  assert (H : files (seedState [fileA] "1") = Some [fileA]) by reflexivity.
  split; [exact H |].
  exact (proj1 (delete_last_file_refused fileA "1" (seedState [fileA] "1") H)).
Defined.

(** Updating file 2 of a two-file snapshot, and an id nobody has. *)
Lemma update_changes_only_target_content_witness :
  ([fileA; fileC] !! 0 = Some fileA /\ id fileA <> "2" /\
   updateFileContent [fileA; fileC] "2" "D" !! 0 = Some fileA) /\
  ([fileA; fileC] !! 1 = Some fileC /\ id fileC = "2" /\
   exists f', updateFileContent [fileA; fileC] "2" "D" !! 1 = Some f' /\
     id f' = "2" /\ name f' = "enemy.gd" /\ language f' = gdscript /\ content f' = "D") /\
  (~ In "9" (ids [fileA; fileC]) /\
   updateFileContent [fileA; fileC] "9" "D" = [fileA; fileC]).
Proof.
  destruct (update_changes_only_target_content [fileA; fileC] "2" "D")
    as (_ & _ & Hother & Htarget & _).
  destruct (update_changes_only_target_content [fileA; fileC] "9" "D")
    as (_ & _ & _ & _ & Habsent).
  assert (H0 : [fileA; fileC] !! 0 = Some fileA) by reflexivity.
  assert (H1 : [fileA; fileC] !! 1 = Some fileC) by reflexivity.
  assert (Hne : id fileA <> "2") by discriminate.
  assert (He : id fileC = "2") by reflexivity.
  assert (H9 : ~ In "9" (ids [fileA; fileC])).
  { simpl. intros [H | [H | []]]; discriminate. }
  split; [split; [exact H0 | split; [exact Hne | exact (Hother 0 fileA H0 Hne)]] |].
  split; [| split; [exact H9 | exact (Habsent H9)]].
  split; [exact H1 | split; [exact He | exact (Htarget 1 fileC H1 He)]].
Defined.

(** ** Strings: suffixes and trimming *)

Section Strings.

Implicit Types (s p suffix : string).

Lemma length_append p s :
  String.length (p ++ s)%string = String.length p + String.length s.
Proof. induction p as [| c p IH]; simpl; [reflexivity | rewrite IH; reflexivity]. Qed.

Lemma substring_whole s : substring 0 (String.length s) s = s.
Proof. induction s as [| c s IH]; simpl; [reflexivity | rewrite IH; reflexivity]. Qed.

Lemma substring_skip p s m :
  substring (String.length p) m (p ++ s)%string = substring 0 m s.
Proof. induction p as [| c p IH]; simpl; [reflexivity | exact IH]. Qed.

Lemma substring_split s : forall k,
  k <= String.length s ->
  s = (substring 0 k s ++ substring k (String.length s - k) s)%string.
Proof.
  induction s as [| c s IH]; intros k Hk; simpl in *.
  - assert (k = 0) as -> by lia. reflexivity.
  - destruct k as [| k]; simpl.
    + rewrite substring_whole. reflexivity.
    + f_equal. apply IH. lia.
Qed.

(** [endsWith] holds exactly when the string is some prefix followed by
    the suffix. *)
Lemma endsWith_spec s suffix :
  Js.endsWith s suffix = true <-> exists p, s = (p ++ suffix)%string.
Proof.
  unfold Js.endsWith. rewrite andb_true_iff, Nat.leb_le, String.eqb_eq. split.
  - intros [Hle Hsub].
    exists (substring 0 (String.length s - String.length suffix) s).
    pose proof (substring_split s (String.length s - String.length suffix)) as Hs.
    replace (String.length s - (String.length s - String.length suffix))
      with (String.length suffix) in Hs by lia.
    rewrite Hsub in Hs. apply Hs. lia.
  - intros [p ->]. rewrite length_append. split; [lia |].
    replace (String.length p + String.length suffix - String.length suffix)
      with (String.length p) by lia.
    rewrite substring_skip. apply substring_whole.
Qed.

Lemma endsWith_false s suffix :
  Js.endsWith s suffix = false <-> ~ exists p, s = (p ++ suffix)%string.
Proof.
  rewrite <- endsWith_spec. destruct (Js.endsWith s suffix); split; congruence.
Qed.

Lemma truthy_spec s : Js.truthy s = true <-> s <> EmptyString.
Proof. destruct s; simpl; split; congruence. Qed.

Example trim_both_ends :
  Js.trim ("  " ++ Js.tab ++ "enemy .gd " ++ Js.nl)%string = "enemy .gd".
Proof. reflexivity. Qed.

Example trim_blank : Js.trim ("   " ++ Js.tab ++ Js.nl)%string = EmptyString.
Proof. reflexivity. Qed.

End Strings.

(** ** Creating files *)

Section Create.

Implicit Types (s : AppState) (fs : Snapshot) (x : ExplorerState).

Lemma handleFileCreate_ok name0 newId s fs :
  files s = Some fs ->
  handleFileCreate name0 newId s =
    Done (setActiveFileId newId (pushToHistory (createFile fs name0 newId) s)).
Proof. intros H. unfold handleFileCreate. rewrite H. reflexivity. Qed.

Lemma newFile_json name0 newId :
  (exists p, name0 = (p ++ ".json")%string) ->
  content (newFile name0 newId) = "{}" /\ language (newFile name0 newId) = json.
Proof.
  intros H. apply endsWith_spec in H. unfold newFile. simpl. rewrite H. auto.
Qed.

Lemma newFile_script name0 newId :
  ~ (exists p, name0 = (p ++ ".json")%string) ->
  content (newFile name0 newId) = ("extends Node" ++ Js.nl)%string /\
  language (newFile name0 newId) = gdscript.
Proof.
  intros H. apply endsWith_false in H. unfold newFile. simpl. rewrite H. auto.
Qed.

(** C8, for the create form. Submitting the create form with a name that
    is non-empty after trimming appends exactly one file at the end of the
    visible list: the files already there keep their positions, the new
    file carries the trimmed name, and its content is the empty object
    literal when the name ends in .json and the one-line script skeleton
    otherwise; the result is logged as one entry. With a name that is
    empty after trimming the form ignores the submission: the handler
    returns normally, [handleFileCreate] is not called, and the form, the
    file list and the log are unchanged. *)
Theorem create_appends_one_file (newId : string) (x : ExplorerState)
    (s : AppState) (fs : Snapshot) :
  files s = Some fs ->
  (Js.trim (newFileName x) <> EmptyString ->
     exists s' f,
       handleCreateSubmit newId x s =
         ({| isCreating := false; newFileName := EmptyString |}, Done s') /\
       files s' = Some (fs ++ [f]) /\
       (forall k g, fs !! k = Some g -> (fs ++ [f]) !! k = Some g) /\
       (fs ++ [f]) !! length fs = Some f /\
       length (fs ++ [f]) = length fs + 1 /\
       id f = newId /\
       name f = Js.trim (newFileName x) /\
       ((exists p, name f = (p ++ ".json")%string) ->
          content f = "{}" /\ language f = json) /\
       (~ (exists p, name f = (p ++ ".json")%string) ->
          content f = ("extends Node" ++ Js.nl)%string /\ language f = gdscript) /\
       history s' = take (historyIndex s + 1) (history s) ++ [fs ++ [f]] /\
       activeFileId s' = newId) /\
  (Js.trim (newFileName x) = EmptyString ->
     handleCreateSubmit newId x s = (x, Done s)).
Proof.
  intros Hf. split.
  - intros Hne. apply truthy_spec in Hne.
    exists (setActiveFileId newId
              (pushToHistory (createFile fs (Js.trim (newFileName x)) newId) s)).
    exists (newFile (Js.trim (newFileName x)) newId).
    split.
    { unfold handleCreateSubmit. rewrite Hne, (handleFileCreate_ok _ _ _ _ Hf).
      reflexivity. }
    split; [reflexivity |].
    split; [intros k g Hk; apply lookup_app_l_Some; exact Hk |].
    split; [apply list_lookup_middle; reflexivity |].
    split; [rewrite length_app; reflexivity |].
    split; [reflexivity |].
    split; [reflexivity |].
    split; [apply newFile_json |].
    split; [apply newFile_script |].
    split; reflexivity.
  - intros He. unfold handleCreateSubmit. rewrite He. reflexivity.
Qed.

End Create.

(** A .json name, a script name and a blank name submitted on the initial
    project; the drawn id is the same in the three runs. *)
Lemma create_appends_one_file_witness :
  files initialState = Some INITIAL_FILES /\
  (Js.trim (newFileName formJson) <> EmptyString /\
   exists s', snd (handleCreateSubmit "k3x9q0z1a" formJson initialState) = Done s' /\
     files s' =
       Some (INITIAL_FILES ++
             [{| id := "k3x9q0z1a"; name := "level.json"; language := json;
                 content := "{}" |}])) /\
  (Js.trim (newFileName formScript) <> EmptyString /\
   exists s', snd (handleCreateSubmit "k3x9q0z1a" formScript initialState) = Done s' /\
     files s' =
       Some (INITIAL_FILES ++
             [{| id := "k3x9q0z1a"; name := "enemy.gd"; language := gdscript;
                 content := ("extends Node" ++ Js.nl)%string |}])) /\
  (Js.trim (newFileName formBlank) = EmptyString /\
   handleCreateSubmit "k3x9q0z1a" formBlank initialState = (formBlank, Done initialState)).
Proof.
  assert (Hf : files initialState = Some INITIAL_FILES) by reflexivity.
  destruct (create_appends_one_file "k3x9q0z1a" formJson initialState _ Hf) as [Hj _].
  destruct (create_appends_one_file "k3x9q0z1a" formScript initialState _ Hf) as [Hs _].
  destruct (create_appends_one_file "k3x9q0z1a" formBlank initialState _ Hf) as [_ Hb].
  assert (Nj : Js.trim (newFileName formJson) <> EmptyString) by (vm_compute; discriminate).
  assert (Ns : Js.trim (newFileName formScript) <> EmptyString) by (vm_compute; discriminate).
  assert (Nb : Js.trim (newFileName formBlank) = EmptyString) by reflexivity.
  split; [exact Hf |].
  split.
  { split; [exact Nj |].
    destruct (Hj Nj) as (s' & f & Hrun & Hfiles & _ & _ & _ & Hid & Hname & Hjson & _).
    exists s'. split; [rewrite Hrun; reflexivity |].
    assert (Hsuf : exists p, name f = (p ++ ".json")%string)
      by (exists "level"; rewrite Hname; reflexivity).
    destruct (Hjson Hsuf) as [Hc Hl].
    rewrite Hfiles. destruct f as [fi fn fl fc]. simpl in Hid, Hname, Hc, Hl.
    rewrite Hid, Hname, Hc, Hl. reflexivity. }
  split.
  { split; [exact Ns |].
    destruct (Hs Ns) as (s' & f & Hrun & Hfiles & _ & _ & _ & Hid & Hname & _ & Hscript & _).
    exists s'. split; [rewrite Hrun; reflexivity |].
    assert (Hsuf : ~ exists p, name f = (p ++ ".json")%string).
    { apply endsWith_false. rewrite Hname. reflexivity. }
    destruct (Hscript Hsuf) as [Hc Hl].
    rewrite Hfiles. destruct f as [fi fn fl fc]. simpl in Hid, Hname, Hc, Hl.
    rewrite Hid, Hname, Hc, Hl. reflexivity. }
  split; [exact Nb | exact (Hb Nb)].
Defined.

(** C8 for [handleFileCreate] itself fails: it does not look at the name.
    Called with a name of blanks, or with the empty name, it raises
    nothing and appends a file of that name, logged as one entry; the
    only check is the one of the form. *)
Lemma create_blank_name_counterexample :
  Js.trim "   " = EmptyString /\
  Js.trim EmptyString = EmptyString /\
  (exists s',
     handleFileCreate "   " "k3x9q0z1a" initialState = Done s' /\
     files s' =
       Some (INITIAL_FILES ++
             [{| id := "k3x9q0z1a"; name := "   "; language := gdscript;
                 content := ("extends Node" ++ Js.nl)%string |}]) /\
     length (history s') = 2 /\ historyIndex s' = 1) /\
  (exists s',
     handleFileCreate EmptyString "k3x9q0z1a" initialState = Done s' /\
     files s' =
       Some (INITIAL_FILES ++
             [{| id := "k3x9q0z1a"; name := EmptyString; language := gdscript;
                 content := ("extends Node" ++ Js.nl)%string |}]) /\
     length (history s') = 2 /\ historyIndex s' = 1).
Proof.
  split; [reflexivity |]. split; [reflexivity |]. split.
  - exists (stateOf (handleFileCreate "   " "k3x9q0z1a" initialState)).
    split; [vm_compute; reflexivity |]. split; [vm_compute; reflexivity |].
    split; vm_compute; reflexivity.
  - exists (stateOf (handleFileCreate EmptyString "k3x9q0z1a" initialState)).
    split; [vm_compute; reflexivity |]. split; [vm_compute; reflexivity |].
    split; vm_compute; reflexivity.
Qed.

(** ** Failed generations *)

Section Generation.

Variable typeErrorMessage : string.

Implicit Types (s cap : AppState) (t : ToolsState) (c : Call) (e : Thrown).

(** The [catch] and [finally] blocks write the explanation and the
    loading flag, whatever render the action started in. *)
Lemma handleActionSettle_rejected c e cap s t :
  handleActionSettle typeErrorMessage c (Rejected e) cap (s, t) =
  (setExplanation (errorText e) s, setLoading false t).
Proof. reflexivity. Qed.

Lemma handleActionStart_frame customPrompt s t c s1 t1 :
  handleActionStart customPrompt (s, t) = Some (c, (s1, t1)) ->
  s1 = setExplanation EmptyString s /\ t1 = setLoading true t /\
  c = callOf customPrompt s t.
Proof.
  unfold handleActionStart. destruct (nothingToDo customPrompt (mode s) t).
  - discriminate.
  - intros H. injection H as <- <- <-. auto.
Qed.

(** C7. When the collaborator call made by the action handler fails,
    the handler only shows the error text and clears the loading flag:
    the log, the cursor, the file list, the active id and the resolved
    active file, hence its content, are those of before the call, and
    the log has no new entry. The same holds of the handler's second
    half alone, whatever happened while the call was pending. *)
Theorem failed_generation_leaves_project
    (customPrompt : option string) (collaborator : Collaborator)
    (s : AppState) (t : ToolsState) (c : Call) (e : Thrown) :
  fst <$> handleActionStart customPrompt (s, t) = Some c ->
  collaborator c = Rejected e ->
  let ui' := handleAction typeErrorMessage customPrompt collaborator (s, t) in
  history (fst ui') = history s /\
  historyIndex (fst ui') = historyIndex s /\
  files (fst ui') = files s /\
  activeFileId (fst ui') = activeFileId s /\
  activeFile (fst ui') = activeFile s /\
  generatedImage (fst ui') = generatedImage s /\
  explanation (fst ui') = errorText e /\
  loading (snd ui') = false /\
  (forall cap cur,
     let ui2 := handleActionSettle typeErrorMessage c (Rejected e) cap cur in
     history (fst ui2) = history (fst cur) /\
     historyIndex (fst ui2) = historyIndex (fst cur) /\
     files (fst ui2) = files (fst cur) /\
     activeFileId (fst ui2) = activeFileId (fst cur)).
Proof.
  intros Hstart Hrej ui'. subst ui'. unfold handleAction.
  destruct (handleActionStart customPrompt (s, t)) as [[c' [s1 t1]] |] eqn:E;
    [| discriminate].
  simpl in Hstart. injection Hstart as ->.
  apply handleActionStart_frame in E as (-> & -> & _).
  rewrite Hrej, handleActionSettle_rejected. simpl.
  do 8 (split; [reflexivity |]).
  intros cap' [s2 t2]. rewrite handleActionSettle_rejected. simpl. auto.
Qed.

End Generation.

(** A code generation started from the initial project against a
    collaborator that rejects. *)
Lemma failed_generation_leaves_project_witness :
  fst <$> handleActionStart None (initialState, toolsReady)
    = Some (CallGenerateCode "Add a dash ability" general) /\
  keylessCollaborator (CallGenerateCode "Add a dash ability" general)
    = Rejected (ErrorObject "API Key missing") /\
  history (fst (handleAction "undefined" None keylessCollaborator
                  (initialState, toolsReady))) = [INITIAL_FILES] /\
  explanation (fst (handleAction "undefined" None keylessCollaborator
                      (initialState, toolsReady))) = "Error: API Key missing".
Proof.
  assert (H1 : fst <$> handleActionStart None (initialState, toolsReady)
               = Some (CallGenerateCode "Add a dash ability" general)) by reflexivity.
  assert (H2 : keylessCollaborator (CallGenerateCode "Add a dash ability" general)
               = Rejected (ErrorObject "API Key missing")) by reflexivity.
  destruct (failed_generation_leaves_project "undefined" None keylessCollaborator
              initialState toolsReady _ _ H1 H2)
    as (Hh & _ & _ & _ & _ & _ & He & _).
  split; [exact H1 |].
  split; [exact H2 |].
  split; [exact Hh | exact He].
Defined.

(** ** Snapshots along runs with fresh identifiers *)

Section Snapshots.

Implicit Types (s : AppState) (fs : Snapshot) (f : ProjectFile) (i c : string).

Lemma hasId_false i fs : hasId i fs = false <-> ~ In i (ids fs).
Proof.
  unfold hasId, ids. induction fs as [| f fs IH]; simpl.
  - split; [tauto | reflexivity].
  - rewrite orb_false_iff, IH, String.eqb_neq. tauto.
Qed.

Lemma createFile_ids fs name0 newId : ids (createFile fs name0 newId) = ids fs ++ [newId].
Proof. unfold ids, createFile. rewrite List.map_app. reflexivity. Qed.

Lemma createFile_ok fs name0 newId :
  NoDup (ids fs) -> ~ In newId (ids fs) -> snapshotOk (createFile fs name0 newId).
Proof.
  intros Hnd Hfresh. split.
  - unfold createFile. intros H. apply app_eq_nil in H as [_ H]. discriminate.
  - rewrite createFile_ids. apply NoDup_app. split; [exact Hnd |].
    split; [| apply NoDup_singleton].
    intros j Hj Hin. apply list_elem_of_singleton in Hin. subst j.
    apply Hfresh, list_elem_of_In, Hj.
Qed.

Lemma updateFileContent_ok fs i c : snapshotOk fs -> snapshotOk (updateFileContent fs i c).
Proof.
  intros [Hne Hnd]. split.
  - intros H. apply Hne. apply length_zero_iff_nil.
    rewrite <- (updateFileContent_length fs i c), H. reflexivity.
  - rewrite updateFileContent_ids. exact Hnd.
Qed.

Lemma deleteFile_ids fs i :
  ids (deleteFile fs i) = List.filter (fun j => negb (String.eqb j i)) (ids fs).
Proof.
  unfold ids, deleteFile. induction fs as [| f fs IH]; simpl; [reflexivity |].
  destruct (String.eqb (id f) i); simpl; rewrite IH; reflexivity.
Qed.

Lemma deleteFile_gone fs i : ~ In i (ids (deleteFile fs i)).
Proof.
  rewrite deleteFile_ids. intros H. apply List.filter_In in H as [_ H].
  rewrite String.eqb_refl in H. discriminate.
Qed.

(** With distinct identifiers a deletion removes at most one file, so two
    files or more leave one. *)
Lemma deleteFile_ok fs i :
  NoDup (ids fs) -> 2 <= length fs -> snapshotOk (deleteFile fs i).
Proof.
  intros Hnd Hlen. split.
  - destruct fs as [| f1 [| f2 fs]]; simpl in Hlen; [lia | lia |].
    unfold deleteFile. simpl.
    destruct (String.eqb_spec (id f1) i) as [E1 | E1]; simpl; [| discriminate].
    destruct (String.eqb_spec (id f2) i) as [E2 | E2]; simpl; [| discriminate].
    exfalso. simpl in Hnd. apply NoDup_cons in Hnd as [Hnotin _].
    apply Hnotin. rewrite E1, <- E2. apply list_elem_of_here.
  - rewrite deleteFile_ids.
    apply NoDup_ListNoDup, List.NoDup_filter, NoDup_ListNoDup, Hnd.
Qed.

Lemma findById_Some i fs f : findById i fs = Some f -> In f fs /\ id f = i.
Proof.
  unfold findById. intros H. apply List.find_some in H as [Hin He].
  split; [exact Hin | apply String.eqb_eq, He].
Qed.

Lemma findById_None i fs : findById i fs = None -> ~ In i (ids fs).
Proof.
  unfold findById, ids. intros H Hin. apply List.in_map_iff in Hin as (f & He & Hf).
  pose proof (List.find_none _ _ H f Hf) as Hn. simpl in Hn.
  rewrite He, String.eqb_refl in Hn. discriminate.
Qed.

(** On a non-empty snapshot the active file resolves: to the first file
    carrying the stored id, or to the first file when no file does. *)
Lemma resolveActiveFile_total fs activeId :
  fs <> [] ->
  exists f, resolveActiveFile fs activeId = Some f /\ In f fs /\
    (In activeId (ids fs) -> id f = activeId) /\
    (~ In activeId (ids fs) -> fs !! 0 = Some f).
Proof.
  intros Hne. unfold resolveActiveFile.
  destruct (findById activeId fs) as [f |] eqn:E.
  - apply findById_Some in E as [Hin He]. exists f.
    split; [reflexivity |]. split; [exact Hin |]. split; [intros _; exact He |].
    intros Hn. exfalso. apply Hn. rewrite <- He. unfold ids. apply List.in_map, Hin.
  - apply findById_None in E. destruct fs as [| f0 fs]; [congruence |].
    exists f0. split; [reflexivity |]. split; [left; reflexivity |].
    split; [contradiction | reflexivity].
Qed.

Lemma resolveActiveFile_head f0 fs :
  resolveActiveFile (f0 :: fs) (id f0) = Some f0.
Proof.
  unfold resolveActiveFile, findById. simpl. rewrite String.eqb_refl. reflexivity.
Qed.

End Snapshots.

Section Runs.

Implicit Types (s : AppState) (fs n : Snapshot) (e : Event).

Lemma projectInv_files s :
  projectInv s -> exists fs, files s = Some fs /\ snapshotOk fs.
Proof.
  intros (Hlt & Hfiles & Hall).
  apply lookup_lt_is_Some in Hlt as [fs Hfs].
  exists fs. split; [congruence |].
  exact (proj1 (Forall_lookup _ _) Hall _ _ Hfs).
Qed.

Lemma pushToHistory_projectInv n s :
  projectInv s -> snapshotOk n -> projectInv (pushToHistory n s).
Proof.
  intros (_ & _ & Hall) Hn. split; [| split].
  - apply lookup_lt_is_Some. rewrite pushToHistory_lookup. eauto.
  - rewrite pushToHistory_lookup. reflexivity.
  - rewrite pushToHistory_history. apply Forall_app. split.
    + apply Forall_take, Hall.
    + apply Forall_singleton, Hn.
Qed.

Lemma undo_projectInv s : projectInv s -> projectInv (undo s).
Proof.
  intros (Hlt & Hfiles & Hall).
  destruct (Nat.eq_dec (historyIndex s) 0) as [H0 | H0].
  - rewrite undo_zero by assumption. split; [| split]; assumption.
  - rewrite undo_pos by lia. split; [| split]; simpl; [lia | reflexivity | exact Hall].
Qed.

Lemma redo_projectInv s : projectInv s -> projectInv (redo s).
Proof.
  intros (Hlt & Hfiles & Hall).
  destruct (Z_lt_dec (Z.of_nat (historyIndex s))
              (Z.of_nat (length (history s)) - 1)) as [H | H].
  - rewrite redo_inner by assumption.
    split; [| split]; simpl; [lia | reflexivity | exact Hall].
  - rewrite redo_tail by assumption. split; [| split]; assumption.
Qed.

Lemma setActiveFileId_projectInv v s : projectInv s -> projectInv (setActiveFileId v s).
Proof. intros H. exact H. Qed.

Lemma setGeneratedImage_projectInv v s : projectInv s -> projectInv (setGeneratedImage v s).
Proof. intros H. exact H. Qed.

(** What [handleFileDelete] does on a well-formed state with two files
    or more. *)
Lemma handleFileDelete_many i s fs :
  files s = Some fs -> NoDup (ids fs) -> 2 <= length fs ->
  exists f0 rest,
    deleteFile fs i = f0 :: rest /\
    handleFileDelete i s =
      Done (if String.eqb (activeFileId s) i
            then setActiveFileId (id f0) (pushToHistory (f0 :: rest) s)
            else pushToHistory (f0 :: rest) s).
Proof.
  intros Hf Hnd Hlen.
  destruct (deleteFile_ok fs i Hnd Hlen) as [Hne _].
  destruct (deleteFile fs i) as [| f0 rest] eqn:E; [congruence |].
  exists f0, rest. split; [reflexivity |].
  unfold handleFileDelete. rewrite Hf.
  destruct (Nat.leb_spec (length fs) 1) as [Hle | _]; [lia |].
  rewrite E. simpl. destruct (String.eqb (activeFileId s) i); reflexivity.
Qed.

Lemma step_projectInv e s :
  projectInv s -> freshEvent e s = true ->
  exists s', step e s = Done s' /\ projectInv s'.
Proof.
  intros Hinv Hfresh.
  destruct (projectInv_files s Hinv) as (fs & Hf & Hne & Hnd).
  destruct e as [name0 newId | i | i | c | c | |]; simpl.
  - unfold freshEvent in Hfresh. rewrite Hf in Hfresh.
    apply negb_true_iff, hasId_false in Hfresh.
    rewrite (handleFileCreate_ok _ _ _ _ Hf). eexists. split; [reflexivity |].
    apply setActiveFileId_projectInv, pushToHistory_projectInv; [exact Hinv |].
    apply createFile_ok; assumption.
  - eexists. split; [reflexivity |]. exact Hinv.
  - destruct (Nat.leb_spec (length fs) 1) as [Hle | Hgt].
    + exists s. split; [| exact Hinv].
      unfold handleFileDelete. rewrite Hf.
      apply Nat.leb_le in Hle. rewrite Hle. reflexivity.
    + destruct (handleFileDelete_many i s fs Hf Hnd) as (f0 & rest & E & Hrun); [lia |].
      rewrite Hrun. eexists. split; [reflexivity |].
      assert (Hok : projectInv (pushToHistory (f0 :: rest) s)).
      { apply pushToHistory_projectInv; [exact Hinv |].
        rewrite <- E. apply deleteFile_ok; [exact Hnd | lia]. }
      destruct (String.eqb (activeFileId s) i); exact Hok.
  - rewrite (updateActiveFileContent_ok _ _ _ Hf). eexists. split; [reflexivity |].
    apply pushToHistory_projectInv; [exact Hinv |].
    apply updateFileContent_ok. split; assumption.
  - unfold handleCodeUpdate. rewrite (updateActiveFileContent_ok _ _ _ Hf).
    eexists. split; [reflexivity |].
    apply setGeneratedImage_projectInv, pushToHistory_projectInv; [exact Hinv |].
    apply updateFileContent_ok. split; assumption.
  - eexists. split; [reflexivity |]. apply undo_projectInv, Hinv.
  - eexists. split; [reflexivity |]. apply redo_projectInv, Hinv.
Qed.

Lemma run_projectInv evs : forall s,
  projectInv s -> freshRun evs s = true ->
  exists s', run evs s = Done s' /\ projectInv s'.
Proof.
  induction evs as [| e evs IH]; intros s Hinv Hfresh; simpl in *.
  - exists s. split; [reflexivity | exact Hinv].
  - apply andb_true_iff in Hfresh as [He Hrest].
    destruct (step_projectInv e s Hinv He) as (s1 & Hstep & Hinv1).
    rewrite Hstep in *. apply IH; assumption.
Qed.

Lemma initialState_projectInv : projectInv initialState.
Proof.
  split; [| split].
  - simpl. lia.
  - reflexivity.
  - apply Forall_singleton. split; [discriminate |].
    apply NoDup_ListNoDup. repeat constructor; simpl; intros H.
    + destruct H as [H | []]. discriminate.
    + contradiction.
Qed.

End Runs.

(** ** Identifiers *)

(** On a snapshot with distinct identifiers, a create keeps them distinct
    exactly when the drawn identifier is not in the snapshot. *)
Lemma createFile_NoDup_iff (fs : Snapshot) (name0 newId : string) :
  NoDup (ids fs) ->
  NoDup (ids (createFile fs name0 newId)) <-> ~ In newId (ids fs).
Proof.
  intros Hnd. split.
  - intros H Hin. rewrite createFile_ids in H. apply NoDup_app in H as (_ & H & _).
    apply (H newId); [apply list_elem_of_In, Hin | apply list_elem_of_here].
  - intros Hfresh. apply (createFile_ok fs name0 newId Hnd Hfresh).
Qed.

(** C9, for runs with fresh identifiers. Along every run from the initial state in which each
    identifier drawn for a create differs from the identifiers of the
    snapshot visible at that moment, no handler throws, and the files of
    the visible snapshot, and of every logged snapshot, have pairwise
    distinct identifiers. *)
Theorem fresh_ids_stay_distinct (evs : list Event) :
  freshRun evs initialState = true ->
  exists s fs,
    run evs initialState = Done s /\
    files s = Some fs /\
    NoDup (ids fs) /\
    Forall (fun snap => NoDup (ids snap)) (history s).
Proof.
  intros Hfresh.
  destruct (run_projectInv evs _ initialState_projectInv Hfresh) as (s & Hrun & Hinv).
  destruct (projectInv_files s Hinv) as (fs & Hf & _ & Hnd).
  exists s, fs. repeat split; try assumption.
  destruct Hinv as (_ & _ & Hall).
  eapply Forall_impl; [exact Hall |]. intros snap [_ H]. exact H.
Qed.

Lemma fresh_ids_stay_distinct_witness :
  freshRun freshSession initialState = true /\
  exists s fs,
    run freshSession initialState = Done s /\ files s = Some fs /\ NoDup (ids fs).
Proof.
  assert (H : freshRun freshSession initialState = true) by reflexivity.
  split; [exact H |].
  destruct (fresh_ids_stay_distinct freshSession H) as (s & fs & Hrun & Hf & Hnd & _).
  exists s, fs. auto.
Defined.

(** C9 without the proviso fails: nothing compares the drawn identifier with those
    in the snapshot, so two creates drawing the same string leave two
    files with one identifier. *)
Lemma colliding_ids_counterexample :
  exists s fs,
    run collidingCreates initialState = Done s /\
    files s = Some fs /\
    ids fs = ["1"; "2"; "k3x9q0z1a"; "k3x9q0z1a"] /\
    ~ NoDup (ids fs).
Proof.
  exists (stateOf (run collidingCreates initialState)).
  exists (createFile (createFile INITIAL_FILES "enemy.gd" "k3x9q0z1a")
            "level.json" "k3x9q0z1a").
  split; [vm_compute; reflexivity |]. split; [vm_compute; reflexivity |].
  split; [reflexivity |].
  intros H. apply NoDup_ListNoDup in H. vm_compute in H.
  inversion H as [| ? ? _ H1]; subst. inversion H1 as [| ? ? _ H2]; subst.
  inversion H2 as [| ? ? Hnotin _]; subst. apply Hnotin. left. reflexivity.
Qed.

(** ** The active file *)

(** C10, for runs with fresh identifiers. Along every run from the initial two-file state in
    which each drawn identifier is fresh, no handler throws, the visible
    file list is non-empty and the active file is a file of the visible
    snapshot, never [undefined]: it carries the stored id when some file
    does, and is the first file of the snapshot when none does. *)
Theorem active_file_total (evs : list Event) :
  freshRun evs initialState = true ->
  exists s fs f,
    run evs initialState = Done s /\
    files s = Some fs /\
    fs <> [] /\
    activeFile s = Val (Some f) /\
    In f fs /\
    (In (activeFileId s) (ids fs) -> id f = activeFileId s) /\
    (~ In (activeFileId s) (ids fs) -> fs !! 0 = Some f).
Proof.
  intros Hfresh.
  destruct (run_projectInv evs _ initialState_projectInv Hfresh) as (s & Hrun & Hinv).
  destruct (projectInv_files s Hinv) as (fs & Hf & Hne & _).
  destruct (resolveActiveFile_total fs (activeFileId s) Hne) as (f & Hres & Hin & Hid & Hfb).
  exists s, fs, f.
  split; [exact Hrun |]. split; [exact Hf |]. split; [exact Hne |].
  split; [unfold activeFile; rewrite Hf, Hres; reflexivity |].
  split; [exact Hin |]. split; [exact Hid | exact Hfb].
Qed.

(** Undoing the create of the active file: the stored id stays, and the
    active file is the first file. *)
Lemma active_file_total_witness :
  freshRun createThenUndo initialState = true /\
  exists s fs f,
    run createThenUndo initialState = Done s /\
    files s = Some fs /\
    activeFileId s = "k3x9q0z1a" /\
    ~ In (activeFileId s) (ids fs) /\
    activeFile s = Val (Some f) /\
    fs !! 0 = Some f.
Proof.
  assert (H : freshRun createThenUndo initialState = true) by reflexivity.
  split; [exact H |].
  destruct (active_file_total createThenUndo H)
    as (s & fs & f & Hrun & Hf & _ & Hact & _ & _ & Hfb).
  assert (Hs : s = setActiveFileId "k3x9q0z1a"
                 (undo (pushToHistory (createFile INITIAL_FILES "enemy.gd" "k3x9q0z1a")
                          initialState))).
  { simpl in Hrun. injection Hrun as <-. reflexivity. }
  assert (Hfs : fs = INITIAL_FILES).
  { rewrite Hs in Hf. simpl in Hf. injection Hf as <-. reflexivity. }
  assert (Habs : ~ In (activeFileId s) (ids fs)).
  { rewrite Hs, Hfs. simpl. intros [E | [E | []]]; discriminate. }
  exists s, fs, f.
  split; [exact Hrun |]. split; [exact Hf |].
  split; [rewrite Hs; reflexivity |].
  split; [exact Habs |]. split; [exact Hact | exact (Hfb Habs)].
Defined.

(** C10 without the proviso fails: when two creates draw the same identifier: the
    deletion of that identifier then removes both files, the visible list
    becomes empty, and the active file is [undefined]. *)
Lemma active_file_undefined_counterexample :
  exists s,
    run collidingSession initialState = Done s /\
    files s = Some [] /\
    activeFile s = Val None.
Proof.
  exists (stateOf (run collidingSession initialState)).
  split; [vm_compute; reflexivity |]. split; vm_compute; reflexivity.
Qed.

(** C6, for the resolved file and runs with fresh identifiers. Along every run from the initial state in which each
    drawn identifier is fresh, resolving the active file gives a file of
    the visible snapshot, never [undefined]; and when the snapshot has two
    files or more, deleting the file the pointer names repoints the
    pointer to the first remaining file, which is then the active file.
    The stored id itself need not name a file of the visible snapshot:
    undo and redo leave it as it is. *)
Theorem active_pointer_resolves (evs : list Event) :
  freshRun evs initialState = true ->
  exists s fs,
    run evs initialState = Done s /\
    files s = Some fs /\
    (exists f, activeFile s = Val (Some f) /\ In f fs) /\
    (2 <= length fs ->
       exists s' f0 rest,
         handleFileDelete (activeFileId s) s = Done s' /\
         deleteFile fs (activeFileId s) = f0 :: rest /\
         files s' = Some (f0 :: rest) /\
         activeFileId s' = id f0 /\
         activeFile s' = Val (Some f0)).
Proof.
  intros Hfresh.
  destruct (run_projectInv evs _ initialState_projectInv Hfresh) as (s & Hrun & Hinv).
  destruct (projectInv_files s Hinv) as (fs & Hf & Hne & Hnd).
  destruct (resolveActiveFile_total fs (activeFileId s) Hne) as (f & Hres & Hin & _).
  exists s, fs.
  split; [exact Hrun |]. split; [exact Hf |].
  split; [exists f; split; [unfold activeFile; rewrite Hf, Hres; reflexivity | exact Hin] |].
  intros Hlen.
  destruct (handleFileDelete_many (activeFileId s) s fs Hf Hnd Hlen)
    as (f0 & rest & E & Hdel).
  rewrite String.eqb_refl in Hdel.
  exists (setActiveFileId (id f0) (pushToHistory (f0 :: rest) s)), f0, rest.
  split; [exact Hdel |]. split; [exact E |]. split; [reflexivity |].
  split; [reflexivity |].
  unfold activeFile. simpl. rewrite resolveActiveFile_head. reflexivity.
Qed.

(** Deleting file 1 while it is active and file 2 exists: the pointer
    moves to file 2. *)
Lemma active_pointer_resolves_witness :
  freshRun [] initialState = true /\
  2 <= length INITIAL_FILES /\
  exists s',
    handleFileDelete "1" initialState = Done s' /\
    activeFileId s' = "2" /\
    ids <$> files s' = Some ["2"] /\
    id <$> (resolveActiveFile (default [] (files s')) (activeFileId s')) = Some "2".
Proof.
  assert (H : freshRun [] initialState = true) by reflexivity.
  assert (Hlen : 2 <= length INITIAL_FILES) by (simpl; lia).
  split; [exact H |]. split; [exact Hlen |].
  destruct (active_pointer_resolves [] H) as (s & fs & Hrun & Hf & _ & Hdel).
  simpl in Hrun. injection Hrun as <-.
  simpl in Hf. injection Hf as <-.
  destruct (Hdel Hlen) as (s' & f0 & rest & Hd & E & Hfiles & Hid & Hact).
  simpl in E. injection E as <- <-.
  exists s'. split; [exact Hd |]. split; [rewrite Hid; reflexivity |].
  rewrite Hfiles, Hid. split; reflexivity.
Defined.

(** C6 for the stored pointer fails, without any collision: after a
    create and its undo the pointer still holds the id of the file that is
    gone; it names no file of the visible snapshot and was not repointed.
    With a collision the resolved file fails too: deleting the active
    file, whose id two files carry, empties the list and the handler
    throws on [updatedFiles[0].id] before it repoints. *)
Lemma dangling_pointer_counterexample :
  (freshRun createThenUndo initialState = true /\
   exists s fs,
     run createThenUndo initialState = Done s /\
     files s = Some fs /\
     ids fs = ["1"; "2"] /\
     activeFileId s = "k3x9q0z1a" /\
     ~ In (activeFileId s) (ids fs)) /\
  (exists s,
     run collidingDeletes initialState = Threw s /\
     files s = Some [] /\
     activeFileId s = "k3x9q0z1a" /\
     activeFile s = Val None).
Proof.
  split.
  - split; [vm_compute; reflexivity |].
    exists (stateOf (run createThenUndo initialState)), INITIAL_FILES.
    split; [vm_compute; reflexivity |]. split; [vm_compute; reflexivity |].
    split; [reflexivity |]. split; [vm_compute; reflexivity |].
    vm_compute. intros [E | [E | []]]; discriminate.
  - exists (stateOf (run collidingDeletes initialState)).
    split; [vm_compute; reflexivity |]. split; [vm_compute; reflexivity |].
    split; vm_compute; reflexivity.
Qed.

(** * Further properties of the code *)

(** ** History: round trips, bounds, buttons and shortcuts *)

Section HistoryMore.

Implicit Types (s : AppState) (n : Snapshot) (e : Event).

Lemma state_eq s1 s2 :
  mode s1 = mode s2 -> files s1 = files s2 -> activeFileId s1 = activeFileId s2 ->
  explanation s1 = explanation s2 -> generatedImage s1 = generatedImage s2 ->
  history s1 = history s2 -> historyIndex s1 = historyIndex s2 -> s1 = s2.
Proof.
  destruct s1, s2; simpl; intros; subst; reflexivity.
Qed.

(** X1. On a state whose cursor points at the visible snapshot, a redo
    that moves is undone by undo, and an undo that moves is undone by
    redo: both return the very state they started from. *)
Theorem undo_redo_round_trip (s : AppState) :
  historyInv s ->
  ((Z.of_nat (historyIndex s) < Z.of_nat (length (history s)) - 1)%Z ->
     undo (redo s) = s) /\
  (0 < historyIndex s -> redo (undo s) = s).
Proof.
  intros (_ & Hlt & snap & Hsnap & Hfiles). split.
  - intros H. rewrite (redo_inner s H), undo_pos by (simpl; lia). simpl.
    replace (historyIndex s + 1 - 1) with (historyIndex s) by lia.
    apply state_eq; simpl; congruence.
  - intros H. rewrite (undo_pos s H), redo_inner by (simpl; lia). simpl.
    replace (historyIndex s - 1 + 1) with (historyIndex s) by lia.
    apply state_eq; simpl; congruence.
Qed.

(** X2. After any push on such a state, undo shows the files and the
    cursor of before the push, and a following redo gives back the state
    the push had produced. *)
Theorem push_undo_redo (n : Snapshot) (s : AppState) :
  historyInv s ->
  files (undo (pushToHistory n s)) = files s /\
  historyIndex (undo (pushToHistory n s)) = historyIndex s /\
  redo (undo (pushToHistory n s)) = pushToHistory n s.
Proof.
  intros (_ & Hlt & snap & Hsnap & Hfiles).
  assert (Hi : historyIndex (pushToHistory n s) = historyIndex s + 1).
  { rewrite pushToHistory_index, length_take. lia. }
  assert (Hu : undo (pushToHistory n s) =
               setFiles (files s) (setHistoryIndex (historyIndex s) (pushToHistory n s))).
  { rewrite undo_pos by lia. rewrite Hi.
    replace (historyIndex s + 1 - 1) with (historyIndex s) by lia.
    f_equal. rewrite Hfiles. apply (pushToHistory_kept n s _ snap); [lia | exact Hsnap]. }
  rewrite Hu. split; [reflexivity |]. split; [reflexivity |].
  rewrite redo_inner.
  - simpl. pose proof (pushToHistory_lookup n s) as Hl. rewrite Hi in Hl.
    apply state_eq; simpl; try reflexivity.
    + rewrite <- Hl. reflexivity.
    + rewrite length_app. simpl. rewrite length_take. lia.
  - simpl. rewrite length_app, length_take. simpl. lia.
Qed.

Lemma step_historyInv e s : historyInv s -> historyInv (stateOf (step e s)).
Proof.
  intros Hinv. pose proof Hinv as (_ & _ & snap & _ & Hf).
  destruct e as [name0 newId | i | i | c | c | |]; simpl.
  - unfold handleFileCreate. rewrite Hf. simpl. apply (pushToHistory_inv _ s).
  - exact Hinv.
  - unfold handleFileDelete. rewrite Hf.
    destruct (length snap <=? 1); [exact Hinv |].
    destruct (String.eqb (activeFileId s) i); [| apply pushToHistory_inv].
    destruct (deleteFile snap i !! 0); simpl; apply (pushToHistory_inv _ s).
  - unfold updateActiveFileContent. rewrite Hf. apply pushToHistory_inv.
  - unfold handleCodeUpdate, updateActiveFileContent. rewrite Hf. simpl.
    apply (pushToHistory_inv _ s).
  - apply undo_inv, Hinv.
  - apply redo_inv, Hinv.
Qed.

Lemma stateOf_run_cons e evs s :
  stateOf (run (e :: evs) s) =
  match step e s with
  | Done s' => stateOf (run evs s')
  | Threw s' => s'
  end.
Proof. simpl. destruct (step e s); reflexivity. Qed.

(** X3. Whatever the user does from the initial state, with or without
    colliding identifiers, and also in the state a throwing handler
    leaves: the log is non-empty, the cursor is inside it, and the
    snapshot under the cursor is the visible file list, which is never
    [undefined]. *)
Theorem run_keeps_history_invariant (evs : list Event) :
  let s := stateOf (run evs initialState) in
  history s <> [] /\
  historyIndex s < length (history s) /\
  exists snap, history s !! historyIndex s = Some snap /\ files s = Some snap.
Proof.
  assert (H : forall evs s, historyInv s -> historyInv (stateOf (run evs s))).
  { clear evs. induction evs as [| e evs IH]; intros s Hinv; [exact Hinv |].
    rewrite stateOf_run_cons. pose proof (step_historyInv e s Hinv) as Hs.
    destruct (step e s); simpl in Hs; [apply IH, Hs | exact Hs]. }
  exact (H evs initialState (seedState_inv INITIAL_FILES "1")).
Qed.

Lemma step_log_growth e s :
  length (history (stateOf (step e s))) <= length (history s) + 1.
Proof.
  assert (Hp : forall n, length (history (pushToHistory n s)) <= length (history s) + 1).
  { intros n. rewrite pushToHistory_length. lia. }
  destruct e as [name0 newId | i | i | c | c | |]; simpl.
  - unfold handleFileCreate. destruct (files s); simpl; [apply Hp | lia].
  - lia.
  - unfold handleFileDelete. destruct (files s) as [fs |]; simpl; [| lia].
    destruct (length fs <=? 1); simpl; [lia |].
    destruct (String.eqb (activeFileId s) i); [| apply Hp].
    destruct (deleteFile fs i !! 0); simpl; apply Hp.
  - unfold updateActiveFileContent. destruct (files s); simpl; [apply Hp | lia].
  - unfold handleCodeUpdate, updateActiveFileContent.
    destruct (files s); simpl; [apply Hp | lia].
  - unfold undo. destruct (0 <? historyIndex s); simpl; lia.
  - unfold redo. destruct (_ <? _)%Z; simpl; lia.
Qed.

(** X4. A user event logs at most one entry, however many files it
    touches: after a run the log is at most as long as the log it started
    from plus the number of events. *)
Theorem run_log_growth (evs : list Event) (s : AppState) :
  length (history (stateOf (run evs s))) <= length (history s) + length evs.
Proof.
  revert s. induction evs as [| e evs IH]; intros s; [simpl; lia |].
  rewrite stateOf_run_cons. pose proof (step_log_growth e s) as Hs.
  destruct (step e s) as [s' | s']; simpl in Hs |- *.
  - specialize (IH s'). lia.
  - lia.
Qed.

(** X5. The undo button is disabled exactly when undo would change
    nothing, and the redo button exactly when redo would change nothing. *)
Theorem history_buttons_match_guards (s : AppState) :
  (undoDisabled s = true <-> undo s = s) /\
  (redoDisabled s = true <-> redo s = s).
Proof.
  unfold undoDisabled, redoDisabled. split.
  - rewrite Nat.leb_le. split.
    + intros H. apply undo_zero. lia.
    + intros H. destruct (Nat.eq_dec (historyIndex s) 0) as [E | E]; [lia |].
      rewrite undo_pos in H by lia. apply (f_equal historyIndex) in H. simpl in H. lia.
  - rewrite Z.geb_le. split.
    + intros H. apply redo_tail. lia.
    + intros H.
      destruct (Z_lt_dec (Z.of_nat (historyIndex s))
                  (Z.of_nat (length (history s)) - 1)) as [L | L]; [| lia].
      rewrite redo_inner in H by exact L.
      apply (f_equal historyIndex) in H. simpl in H. lia.
Qed.

(** X6. A key press never changes the log or the active id, keeps the
    cursor invariant, and changes nothing at all unless Ctrl or Meta is
    held and the key is exactly [z] or [y]; the default action of the
    browser is prevented exactly for those shortcuts. *)
Theorem handleKeyDown_safe (k : KeyboardEvent) (s : AppState) :
  history (snd (handleKeyDown k s)) = history s /\
  activeFileId (snd (handleKeyDown k s)) = activeFileId s /\
  (historyInv s -> historyInv (snd (handleKeyDown k s))) /\
  (metaKey k || ctrlKey k = false -> handleKeyDown k s = (false, s)) /\
  (key k <> "z" -> key k <> "y" -> handleKeyDown k s = (false, s)) /\
  (fst (handleKeyDown k s) = true <->
   (metaKey k || ctrlKey k = true /\ (key k = "z" \/ key k = "y"))).
Proof.
  assert (Hu : history (undo s) = history s /\ activeFileId (undo s) = activeFileId s).
  { unfold undo. destruct (0 <? historyIndex s); auto. }
  assert (Hr : history (redo s) = history s /\ activeFileId (redo s) = activeFileId s).
  { unfold redo. destruct (_ <? _)%Z; auto. }
  unfold handleKeyDown.
  destruct (metaKey k || ctrlKey k); simpl;
    destruct (String.eqb_spec (key k) "z") as [Ez | Ez];
    destruct (String.eqb_spec (key k) "y") as [Ey | Ey];
    destruct (shiftKey k); simpl;
    repeat match goal with |- _ /\ _ => split end;
    try tauto; try congruence;
    try (intros; first [apply undo_inv | apply redo_inv]; assumption);
    try (split; [discriminate | intros [? _]; discriminate]);
    try (split; [intros _; split; [reflexivity | tauto] | reflexivity]);
    try (split; [discriminate | intros [_ [? | ?]]; contradiction]).
Qed.

End HistoryMore.

Lemma midState_inv : historyInv midState.
Proof.
  split; [discriminate |]. split; [vm_compute; lia |].
  exists [fileB]. split; reflexivity.
Qed.

(** Redo then undo, and undo then redo, in the middle of a log. *)
Lemma undo_redo_round_trip_witness :
  historyInv midState /\
  (Z.of_nat (historyIndex midState) < Z.of_nat (length (history midState)) - 1)%Z /\
  0 < historyIndex midState /\
  undo (redo midState) = midState /\
  redo (undo midState) = midState.
Proof.
  assert (H1 : (Z.of_nat (historyIndex midState) <
                Z.of_nat (length (history midState)) - 1)%Z) by (vm_compute; reflexivity).
  assert (H2 : 0 < historyIndex midState) by (vm_compute; lia).
  destruct (undo_redo_round_trip midState midState_inv) as [Hur Hru].
  split; [exact midState_inv |]. split; [exact H1 |]. split; [exact H2 |].
  split; [exact (Hur H1) | exact (Hru H2)].
Defined.

(** A push in the middle of a log, undone and redone. *)
Lemma push_undo_redo_witness :
  historyInv midState /\
  files (undo (pushToHistory [fileC] midState)) = Some [fileB] /\
  redo (undo (pushToHistory [fileC] midState)) = pushToHistory [fileC] midState.
Proof.
  destruct (push_undo_redo [fileC] midState midState_inv) as (Hf & _ & Hr).
  split; [exact midState_inv |]. split; [rewrite Hf; reflexivity | exact Hr].
Defined.

(** Ctrl+Z, Ctrl+Shift+Z with the upper-case key a browser reports, and a
    plain [z], in the middle of a log. *)
Lemma handleKeyDown_safe_witness :
  historyInv midState /\
  historyInv (snd (handleKeyDown (mkKey false true false "z") midState)) /\
  handleKeyDown (mkKey false true true "Z") midState = (false, midState) /\
  handleKeyDown (mkKey false false false "z") midState = (false, midState).
Proof.
  destruct (handleKeyDown_safe (mkKey false true false "z") midState)
    as (_ & _ & Hinv & _).
  destruct (handleKeyDown_safe (mkKey false true true "Z") midState)
    as (_ & _ & _ & _ & Hkey & _).
  destruct (handleKeyDown_safe (mkKey false false false "z") midState)
    as (_ & _ & _ & Hmod & _).
  split; [exact midState_inv |]. split; [exact (Hinv midState_inv) |].
  split; [apply Hkey; discriminate | apply Hmod; reflexivity].
Defined.

(** ** File operations: what a deletion, an edit and a create do *)

Section FileOpsMore.

Implicit Types (s : AppState) (fs : Snapshot) (f : ProjectFile) (i a c : string).

Lemma deleteFile_In fs i f : In f (deleteFile fs i) <-> In f fs /\ id f <> i.
Proof.
  unfold deleteFile. rewrite List.filter_In, negb_true_iff, String.eqb_neq. tauto.
Qed.

Lemma deleteFile_absent fs i : ~ In i (ids fs) -> deleteFile fs i = fs.
Proof.
  induction fs as [| f fs IH]; simpl; intros H; [reflexivity |].
  destruct (String.eqb_spec (id f) i) as [E | E]; simpl.
  - exfalso. apply H. left. exact E.
  - f_equal. apply IH. intros Hin. apply H. right. exact Hin.
Qed.

Lemma deleteFile_length_present fs i :
  NoDup (ids fs) -> In i (ids fs) -> length (deleteFile fs i) + 1 = length fs.
Proof.
  induction fs as [| f fs IH]; simpl; intros Hnd Hin; [contradiction |].
  apply NoDup_cons in Hnd as [Hnotin Hnd].
  destruct (String.eqb_spec (id f) i) as [E | E]; simpl.
  - rewrite deleteFile_absent; [lia |].
    intros H. apply Hnotin. rewrite E. apply list_elem_of_In, H.
  - destruct Hin as [Hin | Hin]; [contradiction |].
    specialize (IH Hnd Hin). lia.
Qed.

Lemma deleteFile_sublist fs i : sublist (deleteFile fs i) fs.
Proof.
  induction fs as [| f fs IH]; simpl; [constructor |].
  destruct (String.eqb (id f) i); simpl; constructor; exact IH.
Qed.

(** X7. Deleting an id keeps, in their order, exactly the files with
    another id. When no file has the id the list is unchanged; when the
    ids are distinct and a file has the id, exactly one file goes. *)
Theorem delete_removes_the_file (fs : Snapshot) (i : string) :
  sublist (deleteFile fs i) fs /\
  (forall f, In f (deleteFile fs i) <-> In f fs /\ id f <> i) /\
  (~ In i (ids fs) -> deleteFile fs i = fs) /\
  (NoDup (ids fs) -> In i (ids fs) -> length (deleteFile fs i) + 1 = length fs).
Proof.
  split; [apply deleteFile_sublist |].
  split; [intros f; apply deleteFile_In |].
  split; [apply deleteFile_absent | apply deleteFile_length_present].
Qed.

Lemma deleteFile_nil_iff fs i :
  deleteFile fs i = [] <-> Forall (fun f => id f = i) fs.
Proof.
  induction fs as [| f fs IH]; simpl; [split; [constructor | reflexivity] |].
  destruct (String.eqb_spec (id f) i) as [E | E]; simpl.
  - rewrite IH. split; [intros H; constructor; assumption |].
    intros H. apply Forall_cons in H as [_ H]. exact H.
  - split; [discriminate |]. intros H. apply Forall_cons in H as [H _]. contradiction.
Qed.

(** X8. On a state with a file list, the only event whose handler throws
    is the deletion of the active id when the list has two files or more
    and every one of them carries that id; the handler has then already
    logged and shown the empty list. *)
Theorem step_throws_iff (e : Event) (s : AppState) (fs : Snapshot) :
  files s = Some fs ->
  ((exists s', step e s = Threw s') <->
   (e = FileDelete (activeFileId s) /\ 2 <= length fs /\
    Forall (fun f => id f = activeFileId s) fs)) /\
  (forall s', step e s = Threw s' ->
     files s' = Some [] /\ activeFileId s' = activeFileId s /\
     history s' = take (historyIndex s + 1) (history s) ++ [[]]).
Proof.
  intros Hf.
  assert (Hdel : forall i,
    handleFileDelete i s =
      if length fs <=? 1 then Done s
      else if String.eqb (activeFileId s) i then
        match deleteFile fs i !! 0 with
        | Some f0 => Done (setActiveFileId (id f0) (pushToHistory (deleteFile fs i) s))
        | None => Threw (pushToHistory (deleteFile fs i) s)
        end
      else Done (pushToHistory (deleteFile fs i) s)).
  { intros i. unfold handleFileDelete. rewrite Hf. reflexivity. }
  destruct e as [name0 newId | i | i | c | c | |]; simpl;
    try (unfold handleFileCreate, handleCodeUpdate, updateActiveFileContent; rewrite Hf);
    try (split; [split; [intros [s' H]; discriminate | intros [H _]; discriminate]
                | intros s' H; discriminate]).
  rewrite Hdel.
  destruct (Nat.leb_spec (length fs) 1) as [Hle | Hgt].
  { split; [split; [intros [s' H]; discriminate | intros (_ & H & _); lia]
           | intros s' H; discriminate]. }
  destruct (String.eqb_spec (activeFileId s) i) as [E | E].
  2:{ split; [split; [intros [s' H]; discriminate | intros (H & _); congruence]
             | intros s' H; discriminate]. }
  subst i. destruct (deleteFile fs (activeFileId s)) as [| f0 rest] eqn:Ed; simpl.
  - apply deleteFile_nil_iff in Ed.
    split; [split; [intros _; split; [reflexivity | split; [lia | exact Ed]] | eauto] |].
    intros s' H. injection H as <-. split; [reflexivity |]. split; reflexivity.
  - split; [split; [intros [s' H]; discriminate |] | intros s' H; discriminate].
    intros (_ & _ & Hall). apply deleteFile_nil_iff in Hall. congruence.
Qed.

Lemma findById_deleteFile fs i a :
  a <> i -> findById a (deleteFile fs i) = findById a fs.
Proof.
  intros Hne. unfold findById, deleteFile.
  induction fs as [| f fs IH]; simpl; [reflexivity |].
  destruct (String.eqb_spec (id f) i) as [E | E]; simpl.
  - destruct (String.eqb_spec (id f) a) as [Ea | Ea]; [congruence | exact IH].
  - destruct (String.eqb (id f) a); [reflexivity | exact IH].
Qed.

Lemma findById_present fs a : In a (ids fs) -> exists f, findById a fs = Some f.
Proof.
  intros Hin. destruct (findById a fs) as [f |] eqn:E; [eauto |].
  apply findById_None in E. contradiction.
Qed.

(** X9. Deleting a file other than the active one, in a list of two
    files or more, leaves the active id and the resolved active file as
    they were, and logs the shorter list as one entry. *)
Theorem delete_other_keeps_active (i : string) (s : AppState) (fs : Snapshot) :
  files s = Some fs ->
  2 <= length fs ->
  i <> activeFileId s ->
  In (activeFileId s) (ids fs) ->
  exists s',
    handleFileDelete i s = Done s' /\
    files s' = Some (deleteFile fs i) /\
    activeFileId s' = activeFileId s /\
    activeFile s' = activeFile s /\
    history s' = take (historyIndex s + 1) (history s) ++ [deleteFile fs i].
Proof.
  intros Hf Hlen Hne Hin.
  exists (pushToHistory (deleteFile fs i) s). split.
  - unfold handleFileDelete. rewrite Hf.
    destruct (Nat.leb_spec (length fs) 1); [lia |].
    destruct (String.eqb_spec (activeFileId s) i); [congruence | reflexivity].
  - split; [reflexivity |]. split; [reflexivity |]. split; [| reflexivity].
    unfold activeFile. rewrite Hf. simpl. f_equal.
    unfold resolveActiveFile. rewrite findById_deleteFile by congruence.
    destruct (findById_present fs _ Hin) as [f ->]. reflexivity.
Qed.

End FileOpsMore.

Section EditMore.

Implicit Types (s : AppState) (fs : Snapshot) (f : ProjectFile) (i j a c : string).

Lemma findById_updateFileContent fs a c :
  findById a (updateFileContent fs a c) = withContent c <$> findById a fs.
Proof.
  unfold findById, updateFileContent.
  induction fs as [| f fs IH]; simpl; [reflexivity |].
  destruct (String.eqb_spec (id f) a) as [E | E]; simpl.
  - apply String.eqb_eq in E. rewrite E. reflexivity.
  - apply String.eqb_neq in E. rewrite E. exact IH.
Qed.

(** X10. Editing while the active id names a file: the handler logs one
    entry, and the active file read back afterwards is the same file
    (same id, name and language) with exactly the content written. *)
Theorem edit_then_read (c : string) (s : AppState) (fs : Snapshot) :
  files s = Some fs ->
  In (activeFileId s) (ids fs) ->
  exists s' f0,
    updateActiveFileContent c s = Done s' /\
    activeFile s = Val (Some f0) /\
    activeFile s' = Val (Some (withContent c f0)) /\
    content (withContent c f0) = c /\
    activeFileId s' = activeFileId s /\
    length (history s') = Nat.min (historyIndex s + 1) (length (history s)) + 1.
Proof.
  intros Hf Hin. destruct (findById_present fs _ Hin) as [f0 Hfind].
  exists (pushToHistory (updateFileContent fs (activeFileId s) c) s), f0.
  split; [apply updateActiveFileContent_ok, Hf |].
  split; [unfold activeFile, resolveActiveFile; rewrite Hf, Hfind; reflexivity |].
  split.
  { unfold activeFile, resolveActiveFile. simpl.
    rewrite findById_updateFileContent, Hfind. reflexivity. }
  split; [reflexivity |]. split; [reflexivity |]. apply pushToHistory_length.
Qed.

(** X11. Editing while the active id names no file of the visible
    list (the editor then shows the first file): no file changes, yet the
    handler logs the unchanged list as a new entry, which discards what
    could have been redone. *)
Theorem edit_with_dangling_id (c : string) (s : AppState) (fs : Snapshot) :
  files s = Some fs ->
  ~ In (activeFileId s) (ids fs) ->
  exists s',
    updateActiveFileContent c s = Done s' /\
    files s' = Some fs /\
    activeFile s' = activeFile s /\
    history s' = take (historyIndex s + 1) (history s) ++ [fs] /\
    redo s' = s'.
Proof.
  intros Hf Habs.
  exists (pushToHistory fs s).
  split.
  { rewrite (updateActiveFileContent_ok c s fs Hf).
    rewrite updateFileContent_absent by exact Habs. reflexivity. }
  split; [reflexivity |].
  split; [unfold activeFile; rewrite Hf; reflexivity |].
  split; [reflexivity | apply redo_after_push].
Qed.

(** X12. Two edits of the same id leave what the second alone would
    leave, and edits of different ids commute. *)
Theorem edits_compose (fs : Snapshot) (i j c1 c2 : string) :
  updateFileContent (updateFileContent fs i c1) i c2 = updateFileContent fs i c2 /\
  (i <> j ->
   updateFileContent (updateFileContent fs i c1) j c2 =
   updateFileContent (updateFileContent fs j c2) i c1).
Proof.
  unfold updateFileContent. rewrite !List.map_map. split.
  - apply List.map_ext. intros f.
    destruct (String.eqb (id f) i) eqn:E; simpl; rewrite E; reflexivity.
  - intros Hne. apply List.map_ext. intros f.
    destruct (String.eqb_spec (id f) i) as [Ei | Ei];
      destruct (String.eqb_spec (id f) j) as [Ej | Ej]; simpl;
      try congruence;
      repeat match goal with
             | |- context [String.eqb ?x ?y] =>
                 destruct (String.eqb_spec x y); try congruence
             end.
Qed.

Lemma findById_createFile fs name0 newId a :
  findById a (createFile fs name0 newId) =
  match findById a fs with
  | Some f => Some f
  | None => if String.eqb newId a then Some (newFile name0 newId) else None
  end.
Proof.
  unfold findById, createFile. induction fs as [| f fs IH]; simpl; [reflexivity |].
  destruct (String.eqb (id f) a); [reflexivity | exact IH].
Qed.

(** X13. After a create the active id is the drawn id. When that id is
    fresh the active file is the new file; when a file already carries it,
    the active file is that older file and not the one just created. *)
Theorem create_selects (name0 newId : string) (s : AppState) (fs : Snapshot) :
  files s = Some fs ->
  exists s',
    handleFileCreate name0 newId s = Done s' /\
    activeFileId s' = newId /\
    (~ In newId (ids fs) -> activeFile s' = Val (Some (newFile name0 newId))) /\
    (In newId (ids fs) ->
       exists f, In f fs /\ id f = newId /\ activeFile s' = Val (Some f)).
Proof.
  intros Hf.
  exists (setActiveFileId newId (pushToHistory (createFile fs name0 newId) s)).
  split; [apply handleFileCreate_ok, Hf |]. split; [reflexivity |].
  unfold activeFile, resolveActiveFile. simpl. rewrite findById_createFile. split.
  - intros Hfresh. destruct (findById newId fs) as [f |] eqn:E.
    + apply findById_Some in E as [Hin He]. exfalso. apply Hfresh.
      rewrite <- He. unfold ids. apply List.in_map, Hin.
    + rewrite String.eqb_refl. reflexivity.
  - intros Hin. destruct (findById_present fs _ Hin) as [f E]. rewrite E.
    apply findById_Some in E as [Hf' He]. exists f. auto.
Qed.

(** X14. Selecting the id of a listed file makes a file with that id the
    active file; a selection leaves the file list, the log and the cursor
    alone, so it is not an undoable step, and it dismisses the image
    preview. *)
Theorem select_makes_active (i : string) (s : AppState) (fs : Snapshot) :
  files s = Some fs ->
  In i (ids fs) ->
  (exists f, activeFile (handleFileSelect i s) = Val (Some f) /\ In f fs /\ id f = i) /\
  files (handleFileSelect i s) = files s /\
  history (handleFileSelect i s) = history s /\
  historyIndex (handleFileSelect i s) = historyIndex s /\
  generatedImage (handleFileSelect i s) = None.
Proof.
  intros Hf Hin. destruct (findById_present fs _ Hin) as [f E]. split.
  - exists f. unfold activeFile, resolveActiveFile. simpl. rewrite Hf, E.
    apply findById_Some in E as [H1 H2]. auto.
  - repeat split.
Qed.

End EditMore.

(** Deleting file 1 of the initial project, and an id nobody has. *)
Lemma delete_removes_the_file_witness :
  NoDup (ids INITIAL_FILES) /\ In "1" (ids INITIAL_FILES) /\
  ~ In "9" (ids INITIAL_FILES) /\
  length (deleteFile INITIAL_FILES "1") + 1 = 2 /\
  deleteFile INITIAL_FILES "9" = INITIAL_FILES.
Proof.
  assert (Hnd : NoDup (ids INITIAL_FILES)).
  { destruct initialState_projectInv as (_ & _ & H).
    apply Forall_singleton in H as [_ H]. exact H. }
  assert (H1 : In "1" (ids INITIAL_FILES)) by (left; reflexivity).
  assert (H9 : ~ In "9" (ids INITIAL_FILES)).
  { simpl. intros [E | [E | []]]; discriminate. }
  destruct (delete_removes_the_file INITIAL_FILES "1") as (_ & _ & _ & Hlen).
  destruct (delete_removes_the_file INITIAL_FILES "9") as (_ & _ & Habs & _).
  split; [exact Hnd |]. split; [exact H1 |]. split; [exact H9 |].
  split; [exact (Hlen Hnd H1) | exact (Habs H9)].
Defined.

(** Two files carry the active id and nothing else is left: deleting it
    throws. *)
Lemma step_throws_iff_witness :
  let s := stateOf (run (collidingCreates ++ [FileDelete "1"; FileDelete "2"]) initialState) in
  let fs := [newFile "enemy.gd" "k3x9q0z1a"; newFile "level.json" "k3x9q0z1a"] in
  files s = Some fs /\
  exists s', step (FileDelete "k3x9q0z1a") s = Threw s' /\ files s' = Some [].
Proof.
  intros s fs.
  assert (Hf : files s = Some fs) by (vm_compute; reflexivity).
  destruct (step_throws_iff (FileDelete "k3x9q0z1a") s fs Hf) as [[_ Hthrow] Hafter].
  split; [exact Hf |].
  destruct Hthrow as [s' Hs'].
  { split; [vm_compute; reflexivity |]. split; [simpl; lia |].
    repeat constructor. }
  exists s'. split; [exact Hs' | exact (proj1 (Hafter s' Hs'))].
Defined.

(** Deleting file 2 of the initial project while file 1 is active. *)
Lemma delete_other_keeps_active_witness :
  files initialState = Some INITIAL_FILES /\
  2 <= length INITIAL_FILES /\
  "2" <> activeFileId initialState /\
  In (activeFileId initialState) (ids INITIAL_FILES) /\
  exists s',
    handleFileDelete "2" initialState = Done s' /\
    activeFileId s' = "1" /\
    activeFile s' = activeFile initialState.
Proof.
  assert (Hf : files initialState = Some INITIAL_FILES) by reflexivity.
  assert (Hlen : 2 <= length INITIAL_FILES) by (simpl; lia).
  assert (Hne : "2" <> activeFileId initialState) by discriminate.
  assert (Hin : In (activeFileId initialState) (ids INITIAL_FILES)) by (left; reflexivity).
  destruct (delete_other_keeps_active "2" initialState INITIAL_FILES Hf Hlen Hne Hin)
    as (s' & Hd & _ & Ha & Hact & _).
  split; [exact Hf |]. split; [exact Hlen |]. split; [exact Hne |]. split; [exact Hin |].
  exists s'. split; [exact Hd |]. split; [exact Ha | exact Hact].
Defined.

(** Typing into the editor on the initial project. *)
Lemma edit_then_read_witness :
  files initialState = Some INITIAL_FILES /\
  In (activeFileId initialState) (ids INITIAL_FILES) /\
  exists s',
    updateActiveFileContent "extends Node2D" initialState = Done s' /\
    activeFile s' =
      Val (Some {| id := "1"; name := "player.gd"; language := gdscript;
                   content := "extends Node2D" |}).
Proof.
  assert (Hf : files initialState = Some INITIAL_FILES) by reflexivity.
  assert (Hin : In (activeFileId initialState) (ids INITIAL_FILES)) by (left; reflexivity).
  destruct (edit_then_read "extends Node2D" initialState INITIAL_FILES Hf Hin)
    as (s' & f0 & Hd & H0 & H1 & _).
  split; [exact Hf |]. split; [exact Hin |].
  exists s'. split; [exact Hd |].
  assert (E : f0 = {| id := "1"; name := "player.gd"; language := gdscript;
                      content := INITIAL_CODE |}).
  { vm_compute in H0. injection H0 as <-. vm_compute. reflexivity. }
  rewrite H1, E. reflexivity.
Defined.

(** Typing into the editor after a create and its undo. *)
Lemma edit_with_dangling_id_witness :
  let s := stateOf (run createThenUndo initialState) in
  files s = Some INITIAL_FILES /\
  ~ In (activeFileId s) (ids INITIAL_FILES) /\
  (Z.of_nat (historyIndex s) < Z.of_nat (length (history s)) - 1)%Z /\
  exists s',
    updateActiveFileContent "extends Node2D" s = Done s' /\
    files s' = Some INITIAL_FILES /\
    redo s' = s'.
Proof.
  intros s.
  assert (Hf : files s = Some INITIAL_FILES) by (vm_compute; reflexivity).
  assert (Habs : ~ In (activeFileId s) (ids INITIAL_FILES)).
  { vm_compute. intros [E | [E | []]]; discriminate. }
  assert (Hredo : (Z.of_nat (historyIndex s) < Z.of_nat (length (history s)) - 1)%Z)
    by (vm_compute; reflexivity).
  destruct (edit_with_dangling_id "extends Node2D" s INITIAL_FILES Hf Habs)
    as (s' & Hd & Hf' & _ & _ & Hr).
  split; [exact Hf |]. split; [exact Habs |]. split; [exact Hredo |].
  exists s'. split; [exact Hd |]. split; [exact Hf' | exact Hr].
Defined.

(** A create with a fresh id, and a second create drawing the same id. *)
Lemma create_selects_witness :
  let s1 := stateOf (run [FileCreate "enemy.gd" "k3x9q0z1a"] initialState) in
  let fs1 := createFile INITIAL_FILES "enemy.gd" "k3x9q0z1a" in
  files initialState = Some INITIAL_FILES /\
  ~ In "k3x9q0z1a" (ids INITIAL_FILES) /\
  activeFile s1 = Val (Some (newFile "enemy.gd" "k3x9q0z1a")) /\
  files s1 = Some fs1 /\
  In "k3x9q0z1a" (ids fs1) /\
  exists s2,
    handleFileCreate "level.json" "k3x9q0z1a" s1 = Done s2 /\
    activeFile s2 = Val (Some (newFile "enemy.gd" "k3x9q0z1a")).
Proof.
  intros s1 fs1.
  assert (Hf : files initialState = Some INITIAL_FILES) by reflexivity.
  assert (Hfresh : ~ In "k3x9q0z1a" (ids INITIAL_FILES)).
  { simpl. intros [E | [E | []]]; discriminate. }
  assert (Hf1 : files s1 = Some fs1) by (vm_compute; reflexivity).
  assert (Hin : In "k3x9q0z1a" (ids fs1)) by (right; right; left; reflexivity).
  destruct (create_selects "enemy.gd" "k3x9q0z1a" initialState INITIAL_FILES Hf)
    as (s' & Hd & _ & Hnew & _).
  destruct (create_selects "level.json" "k3x9q0z1a" s1 fs1 Hf1)
    as (s2 & Hd2 & _ & _ & Hold).
  split; [exact Hf |]. split; [exact Hfresh |].
  split.
  { replace s1 with s'; [exact (Hnew Hfresh) |].
    vm_compute in Hd. injection Hd as <-. vm_compute. reflexivity. }
  split; [exact Hf1 |]. split; [exact Hin |].
  exists s2. split; [exact Hd2 |].
  destruct (Hold Hin) as (f & _ & _ & Hact). rewrite Hact.
  vm_compute in Hd2. injection Hd2 as <-. vm_compute in Hact. rewrite <- Hact.
  vm_compute. reflexivity.
Defined.

(** Selecting file 2 of the initial project. *)
Lemma select_makes_active_witness :
  files initialState = Some INITIAL_FILES /\
  In "2" (ids INITIAL_FILES) /\
  exists f, activeFile (handleFileSelect "2" initialState) = Val (Some f) /\ id f = "2".
Proof.
  assert (Hf : files initialState = Some INITIAL_FILES) by reflexivity.
  assert (Hin : In "2" (ids INITIAL_FILES)) by (right; left; reflexivity).
  destruct (select_makes_active "2" initialState INITIAL_FILES Hf Hin)
    as ((f & Hact & _ & Hid) & _).
  split; [exact Hf |]. split; [exact Hin |]. exists f. auto.
Defined.

(** ** The action handler: which call it makes and what it may change *)

Section ActionMore.

Variable typeErrorMessage : string.

Implicit Types (s : AppState) (t : ToolsState) (c : Call).

Lemma truthy_trim x : Js.truthy (Js.trim x) = true -> Js.truthy x = true.
Proof. destruct x; [discriminate | reflexivity]. Qed.

Lemma handleAction_unfold customPrompt collaborator s t :
  handleAction typeErrorMessage customPrompt collaborator (s, t) =
  if nothingToDo customPrompt (mode s) t then (s, t)
  else handleActionSettle typeErrorMessage (callOf customPrompt s t)
         (collaborator (callOf customPrompt s t)) s
         (setExplanation EmptyString s, setLoading true t).
Proof.
  unfold handleAction, handleActionStart.
  destruct (nothingToDo customPrompt (mode s) t); reflexivity.
Qed.

(** X15. In debugger mode, and in asset mode with image output, an
    action never changes the file list, the log, the cursor or the active
    id, whatever the collaborator answers. *)
Theorem analysis_and_images_leave_project
    (customPrompt : option string) (collaborator : Collaborator)
    (s : AppState) (t : ToolsState) :
  mode s = DEBUGGER \/ (mode s = ASSET_GEN /\ assetOutputMode t = image) ->
  let ui' := handleAction typeErrorMessage customPrompt collaborator (s, t) in
  files (fst ui') = files s /\
  history (fst ui') = history s /\
  historyIndex (fst ui') = historyIndex s /\
  activeFileId (fst ui') = activeFileId s.
Proof.
  intros Hmode ui'. subst ui'. rewrite handleAction_unfold.
  destruct (nothingToDo customPrompt (mode s) t); [auto |].
  unfold callOf.
  destruct Hmode as [Hm | [Hm Ho]]; rewrite Hm;
    [destruct (assetOutputMode t) | rewrite Ho];
    match goal with
    | |- context [collaborator ?c] => destruct (collaborator c)
    end; simpl; auto.
Qed.

(** X16. A code generation that resolves with an answer of the declared
    type, an object with a string [code] and a string [explanation], is
    applied as one edit of the active file: the visible list is the old
    one with the new content at the active id, the log gets exactly one
    entry after the cursor, the image preview is dismissed and the
    explanation shown. An answer that is falsy changes nothing but the
    cleared explanation. Truthy answers of another shape are not covered
    by the statement. *)
Theorem generation_applies_one_edit
    (customPrompt : option string) (collaborator : Collaborator)
    (s : AppState) (t : ToolsState) (fs : Snapshot) (p : string) (g : GenMode) :
  files s = Some fs ->
  fst <$> handleActionStart customPrompt (s, t) = Some (CallGenerateCode p g) ->
  let ui' := handleAction typeErrorMessage customPrompt collaborator (s, t) in
  (forall r, collaborator (CallGenerateCode p g) = Resolved (Some r) ->
     files (fst ui') = Some (updateFileContent fs (activeFileId s) (code r)) /\
     history (fst ui') =
       take (historyIndex s + 1) (history s) ++
       [updateFileContent fs (activeFileId s) (code r)] /\
     history (fst ui') !! historyIndex (fst ui') =
       Some (updateFileContent fs (activeFileId s) (code r)) /\
     activeFileId (fst ui') = activeFileId s /\
     generatedImage (fst ui') = None /\
     explanation (fst ui') = explanation_of r /\
     loading (snd ui') = false) /\
  (collaborator (CallGenerateCode p g) = Resolved None ->
     ui' = (setExplanation EmptyString s, setLoading false (setLoading true t))).
Proof.
  intros Hf Hstart ui'. subst ui'. unfold handleAction.
  destruct (handleActionStart customPrompt (s, t)) as [[c [s1 t1]] |] eqn:E;
    [| discriminate].
  simpl in Hstart. injection Hstart as ->.
  apply handleActionStart_frame in E as (-> & -> & _).
  split.
  - intros r Hr. rewrite Hr. simpl. unfold codeUpdateFrom. rewrite Hf. simpl.
    split; [reflexivity |]. split; [reflexivity |].
    split; [| auto].
    apply (pushToHistory_lookup (updateFileContent fs (activeFileId s) (code r)) s).
  - intros Hr. rewrite Hr. reflexivity.
Qed.

(** X17. The prompt sent with a code generation or an image generation
    is never the empty string. *)
Theorem sent_prompt_not_empty (customPrompt : option string)
    (s : AppState) (t : ToolsState) (c : Call) :
  fst <$> handleActionStart customPrompt (s, t) = Some c ->
  match c with
  | CallGenerateCode p _ => p <> EmptyString
  | CallVisualAsset p => p <> EmptyString
  | CallAnalyzeError _ _ => True
  end.
Proof.
  unfold handleActionStart.
  destruct (nothingToDo customPrompt (mode s) t) eqn:Hg; [discriminate |].
  simpl. intros H. injection H as <-.
  assert (Hvis : Js.or_else (finalPromptOf customPrompt t) "A high quality game asset."
                 <> EmptyString).
  { unfold Js.or_else. destruct (finalPromptOf customPrompt t); simpl; discriminate. }
  assert (Hcode : isDebugger (mode s) = false ->
                  effectivePromptOf (finalPromptOf customPrompt t) t <> EmptyString).
  { intros Hd. unfold nothingToDo in Hg. rewrite Hd in Hg. simpl in Hg.
    rewrite andb_true_r in Hg. unfold effectivePromptOf.
    destruct (finalPromptOf customPrompt t) as [| ch rest] eqn:Efp; simpl in *;
      [| discriminate].
    destruct (Js.truthy (referenceInput t)) eqn:Er; simpl; [discriminate |].
    assert (Etr : Js.truthy (Js.trim (referenceInput t)) = false).
    { destruct (Js.truthy (Js.trim (referenceInput t))) eqn:E2; [| reflexivity].
      apply truthy_trim in E2. congruence. }
    rewrite Etr in Hg. simpl in Hg. apply negb_false_iff in Hg. rewrite Hg.
    discriminate. }
  unfold callOf.
  destruct (mode s) eqn:Hm; try (apply Hcode; reflexivity); [| exact I].
  destruct (assetOutputMode t); [apply Hcode; reflexivity | exact Hvis].
Qed.

(** X18. The main button and the guard of the handler. When the button is
    disabled for lack of input, the handler would return at once. A
    prompt of blanks alone enables the button, and the handler still
    returns at once: nothing is set, no call is made. The guard does not
    look at the loading flag: a quick action, whose prompt is not blank,
    starts a call even while another is pending. *)
Theorem action_guard_and_button (s : AppState) (t : ToolsState) :
  (loading t = false -> actionDisabled (mode s) t = true ->
     handleActionStart None (s, t) = None) /\
  (Js.trim (prompt t) = EmptyString -> referenceInput t = EmptyString ->
   selectedImage t = None -> mode s <> DEBUGGER ->
     handleActionStart None (s, t) = None /\
     (prompt t <> EmptyString -> loading t = false ->
        actionDisabled (mode s) t = false)) /\
  (forall quick, Js.trim quick <> EmptyString ->
     handleActionStart (Some quick) (s, t) <> None /\
     snd <$> (snd <$> handleActionStart (Some quick) (s, t)) = Some (setLoading true t)).
Proof.
  split; [| split].
  - intros Hl Hd. unfold actionDisabled in Hd. rewrite Hl in Hd. simpl in Hd.
    apply andb_true_iff in Hd as [Hd Hm]. apply andb_true_iff in Hd as [Hd Hi].
    apply andb_true_iff in Hd as [Hp Hr].
    unfold handleActionStart, nothingToDo. simpl.
    destruct (prompt t); [| discriminate]. destruct (referenceInput t); [| discriminate].
    simpl. rewrite Hi, Hm. reflexivity.
  - intros Hp Hr Hi Hm. split.
    + unfold handleActionStart, nothingToDo. simpl. rewrite Hp, Hr, Hi. simpl.
      destruct (mode s); try reflexivity. congruence.
    + intros Hne Hl. unfold actionDisabled. rewrite Hl. simpl.
      destruct (prompt t); [congruence | reflexivity].
  - intros quick Hq.
    assert (Hfp : finalPromptOf (Some quick) t = quick).
    { simpl. unfold Js.or_else. destruct quick; [contradiction | reflexivity]. }
    unfold handleActionStart, nothingToDo. rewrite Hfp.
    apply truthy_spec in Hq. rewrite Hq. simpl. split; [discriminate | reflexivity].
Qed.

(** X19. Without an API key every call of the service layer is rejected
    before anything is sent, so every action that passes the guard ends
    with the text "Error: API Key missing" in the explanation panel, the
    loading flag cleared, and the project as it was. *)
Theorem missing_api_key_reported (customPrompt : option string) (backend : Collaborator)
    (s : AppState) (t : ToolsState) :
  handleActionStart customPrompt (s, t) <> None ->
  let ui' := handleAction typeErrorMessage customPrompt
               (keyedCollaborator EmptyString backend) (s, t) in
  explanation (fst ui') = "Error: API Key missing" /\
  loading (snd ui') = false /\
  files (fst ui') = files s /\
  history (fst ui') = history s /\
  historyIndex (fst ui') = historyIndex s /\
  generatedImage (fst ui') = generatedImage s.
Proof.
  intros Hstart ui'. subst ui'. rewrite handleAction_unfold.
  unfold handleActionStart in Hstart.
  destruct (nothingToDo customPrompt (mode s) t); [congruence |].
  unfold keyedCollaborator. simpl. auto 10.
Qed.

End ActionMore.

(** An analysis in debugger mode against a collaborator that answers. *)
Lemma analysis_and_images_leave_project_witness :
  let s := mkApp DEBUGGER (Some INITIAL_FILES) "1" EmptyString None [INITIAL_FILES] 0 in
  let answering : Collaborator := fun c =>
    match c return Settled (replyOf c) with
    | CallVisualAsset _ => Resolved "data:image/png;base64,AAAA"
    | CallAnalyzeError _ _ => Resolved (Some "The node is freed before the signal fires.")
    | CallGenerateCode _ _ => Resolved (Some (mkResponse "extends Node2D" "Changed the base class."))
    end in
  (mode s = DEBUGGER \/ (mode s = ASSET_GEN /\ assetOutputMode toolsReady = image)) /\
  files (fst (handleAction "undefined" None answering (s, toolsReady))) = Some INITIAL_FILES /\
  explanation (fst (handleAction "undefined" None answering (s, toolsReady)))
    = "The node is freed before the signal fires.".
Proof.
  intros s answering.
  assert (H : mode s = DEBUGGER \/ (mode s = ASSET_GEN /\ assetOutputMode toolsReady = image))
    by (left; reflexivity).
  destruct (analysis_and_images_leave_project "undefined" None answering s toolsReady H)
    as (Hf & _).
  split; [exact H |]. split; [exact Hf | reflexivity].
Defined.

(** A code generation on the initial project against a collaborator that
    answers. *)
Lemma generation_applies_one_edit_witness :
  let answering : Collaborator := fun c =>
    match c return Settled (replyOf c) with
    | CallVisualAsset _ => Resolved "data:image/png;base64,AAAA"
    | CallAnalyzeError _ _ => Resolved None
    | CallGenerateCode _ _ => Resolved (Some (mkResponse "extends Node2D" "Changed the base class."))
    end in
  files initialState = Some INITIAL_FILES /\
  fst <$> handleActionStart None (initialState, toolsReady)
    = Some (CallGenerateCode "Add a dash ability" general) /\
  files (fst (handleAction "undefined" None answering (initialState, toolsReady)))
    = Some (updateFileContent INITIAL_FILES "1" "extends Node2D") /\
  length (history (fst (handleAction "undefined" None answering (initialState, toolsReady))))
    = 2.
Proof.
  intros answering.
  assert (Hf : files initialState = Some INITIAL_FILES) by reflexivity.
  assert (Hs : fst <$> handleActionStart None (initialState, toolsReady)
               = Some (CallGenerateCode "Add a dash ability" general)) by reflexivity.
  destruct (generation_applies_one_edit "undefined" None answering initialState toolsReady
              INITIAL_FILES _ _ Hf Hs) as [Hok _].
  destruct (Hok (mkResponse "extends Node2D" "Changed the base class.") eq_refl)
    as (Hfiles & Hhist & _).
  split; [exact Hf |]. split; [exact Hs |]. split; [exact Hfiles |].
  rewrite Hhist. reflexivity.
Defined.

(** No prompt, a reference pasted in: the prompt sent is the stock one. *)
Lemma sent_prompt_not_empty_witness :
  let t := mkTools EmptyString "class Foo {}" false EmptyString script None in
  fst <$> handleActionStart None (initialState, t)
    = Some (CallGenerateCode
              "Replicate the functionality of the reference material in Godot 4." general) /\
  "Replicate the functionality of the reference material in Godot 4." <> EmptyString.
Proof.
  intros t.
  assert (Hs : fst <$> handleActionStart None (initialState, t)
               = Some (CallGenerateCode
                         "Replicate the functionality of the reference material in Godot 4."
                         general)) by reflexivity.
  split; [exact Hs |].
  exact (sent_prompt_not_empty None initialState t _ Hs).
Defined.

(** A prompt of two blanks, and a quick action pressed while loading. *)
Lemma action_guard_and_button_witness :
  let blank := mkTools "  " EmptyString false EmptyString script None in
  let busy := mkTools EmptyString EmptyString true EmptyString script None in
  (Js.trim (prompt blank) = EmptyString /\ mode initialState <> DEBUGGER /\
   handleActionStart None (initialState, blank) = None /\
   actionDisabled (mode initialState) blank = false) /\
  (Js.trim "Optimize the existing code for performance and readability." <> EmptyString /\
   handleActionStart
     (Some "Optimize the existing code for performance and readability.")
     (initialState, busy) <> None).
Proof.
  intros blank busy.
  destruct (action_guard_and_button initialState blank) as (_ & Hblank & _).
  destruct (action_guard_and_button initialState busy) as (_ & _ & Hquick).
  assert (H1 : Js.trim (prompt blank) = EmptyString) by reflexivity.
  assert (H2 : mode initialState <> DEBUGGER) by discriminate.
  assert (H3 : Js.trim "Optimize the existing code for performance and readability."
               <> EmptyString) by (vm_compute; discriminate).
  destruct (Hblank H1 eq_refl eq_refl H2) as [Hnone Hen].
  split.
  - split; [exact H1 |]. split; [exact H2 |]. split; [exact Hnone |].
    apply Hen; [discriminate | reflexivity].
  - split; [exact H3 | exact (proj1 (Hquick _ H3))].
Defined.

(** A generation on the initial project without an API key. *)
Lemma missing_api_key_reported_witness :
  handleActionStart None (initialState, toolsReady) <> None /\
  explanation (fst (handleAction "undefined" None
                      (keyedCollaborator EmptyString keylessCollaborator)
                      (initialState, toolsReady)))
    = "Error: API Key missing".
Proof.
  assert (H : handleActionStart None (initialState, toolsReady) <> None) by discriminate.
  split; [exact H |].
  exact (proj1 (missing_api_key_reported "undefined" None keylessCollaborator
                  initialState toolsReady H)).
Defined.

(** ** The chat panel *)

Section ChatMore.

Import Chat.

Implicit Types (c : State) (o : Settled (option string)).

Lemma replyMessage_not_empty o :
  content (replyMessage o) <> EmptyString /\ role (replyMessage o) = model.
Proof.
  destruct o as [[[| ch rest] |] | e]; simpl; split; try reflexivity; discriminate.
Qed.

(** X20. A chat submission with a blank input, or while a reply is
    pending, changes nothing. Otherwise the transcript grows by exactly
    two messages, the user's input as typed and then one message of the
    model, which is never empty (an empty or missing answer and a failed
    call are replaced by stock sentences); the input is cleared and the
    loading flag is off again. The call is given the transcript of before
    the submission. In every case the old transcript is a prefix of the
    new one. *)
Theorem chat_submit_appends (reply : Request -> Settled (option string)) (c : State) :
  let c' := handleChatSubmit reply c in
  let q := {| sentHistory := chatHistory c; newMessage := chatInput c |} in
  (Js.trim (chatInput c) = EmptyString \/ chatLoading c = true -> c' = c) /\
  (Js.trim (chatInput c) <> EmptyString -> chatLoading c = false ->
     chatHistory c' =
       chatHistory c ++ [ {| role := user; content := chatInput c |}; replyMessage (reply q) ] /\
     content (replyMessage (reply q)) <> EmptyString /\
     chatInput c' = EmptyString /\
     chatLoading c' = false) /\
  chatHistory c `prefix_of` chatHistory c'.
Proof.
  intros c' q. subst c' q. unfold handleChatSubmit, submitStart.
  destruct (Js.truthy (Js.trim (chatInput c))) eqn:Et; simpl.
  - apply truthy_spec in Et. destruct (chatLoading c) eqn:El; simpl.
    + split; [reflexivity |]. split; [discriminate |]. reflexivity.
    + split; [intros [H | H]; congruence |]. split.
      * intros _ _. rewrite <- app_assoc. simpl.
        split; [reflexivity |]. split; [apply replyMessage_not_empty | auto].
      * rewrite <- app_assoc. apply prefix_app_r. reflexivity.
  - split; [reflexivity |]. split; [| reflexivity].
    intros H. apply truthy_spec in H. congruence.
Qed.

End ChatMore.

(** A question asked on the opening transcript, answered with nothing. *)
Lemma chat_submit_appends_witness :
  let c := Chat.mkState [Chat.greeting] "How do I add a dash?" false in
  let silent : Chat.Request -> Settled (option string) := fun _ => Resolved None in
  Js.trim (Chat.chatInput c) <> EmptyString /\
  Chat.chatLoading c = false /\
  Chat.chatHistory (Chat.handleChatSubmit silent c) =
    [ Chat.greeting;
      Chat.mkMessage Chat.user "How do I add a dash?";
      Chat.mkMessage Chat.model "I couldn't generate a response." ].
Proof.
  intros c silent.
  assert (H1 : Js.trim (Chat.chatInput c) <> EmptyString) by (vm_compute; discriminate).
  assert (H2 : Chat.chatLoading c = false) by reflexivity.
  destruct (chat_submit_appends silent c) as (_ & H & _).
  destruct (H H1 H2) as (Hh & _).
  split; [exact H1 |]. split; [exact H2 |]. rewrite Hh. reflexivity.
Defined.

(** ** The service layer *)

Section GeminiMore.

Import Gemini.

Implicit Types (parts : list (option InlineData)) (d : InlineData).

Lemma extractImage_resolved parts url :
  extractImage parts = Resolved url <->
  exists pre d post,
    parts = pre ++ Some d :: post /\ Forall (fun x => x = None) pre /\ url = dataUrl d.
Proof.
  induction parts as [| [d |] parts IH]; simpl.
  - split; [discriminate |]. intros (pre & d & post & H & _). destruct pre; discriminate.
  - split.
    + intros H. injection H as <-. exists [], d, parts.
      split; [reflexivity |]. split; [constructor | reflexivity].
    + intros (pre & d' & post & H & Hpre & ->). destruct pre as [| x pre]; simpl in H.
      * injection H as <- _. reflexivity.
      * injection H as <- _. apply Forall_cons in Hpre as [Hx _]. discriminate.
  - rewrite IH. split.
    + intros (pre & d & post & -> & Hpre & ->). exists (None :: pre), d, post.
      split; [reflexivity |]. split; [constructor; [reflexivity | exact Hpre] | reflexivity].
    + intros (pre & d & post & H & Hpre & ->). destruct pre as [| x pre]; simpl in H.
      * discriminate.
      * injection H as _ ->. apply Forall_cons in Hpre as [_ Hpre].
        exists pre, d, post. auto.
Qed.

Lemma extractImage_rejected parts e :
  extractImage parts = Rejected e <->
  Forall (fun x => x = None) parts /\
  e = ErrorObject "No image data received in response.".
Proof.
  induction parts as [| [d |] parts IH]; simpl.
  - split; [intros H; injection H as <-; auto | intros [_ ->]; reflexivity].
  - split; [discriminate |]. intros [H _]. apply Forall_cons in H as [H _]. discriminate.
  - rewrite IH. split; intros [H ->]; split; try reflexivity.
    + constructor; [reflexivity | exact H].
    + apply Forall_cons in H as [_ H]. exact H.
Qed.

(** X21. [generateVisualAsset] resolves exactly when a key is set, the
    request succeeds and some part of the answer carries inline data, and
    then to the data URL of the first such part. Without a key it rejects
    with "API Key missing" whatever the request would give; a failed
    request is passed on unchanged; an answer without inline data, an
    empty one included, rejects with "No image data received in
    response.". *)
Theorem visual_asset_result (apiKey : string)
    (sdk : list Part -> Settled (list (option InlineData)))
    (prompt0 : string) (ref : option string) :
  let sent := visualAssetParts prompt0 ref in
  (forall url,
     generateVisualAsset apiKey sdk prompt0 ref = Resolved url <->
     apiKey <> EmptyString /\
     exists pre d post,
       sdk sent = Resolved (pre ++ Some d :: post) /\
       Forall (fun x => x = None) pre /\ url = dataUrl d) /\
  (apiKey = EmptyString ->
     generateVisualAsset apiKey sdk prompt0 ref = Rejected (ErrorObject "API Key missing")) /\
  (apiKey <> EmptyString -> forall e, sdk sent = Rejected e ->
     generateVisualAsset apiKey sdk prompt0 ref = Rejected e) /\
  (apiKey <> EmptyString -> forall parts, sdk sent = Resolved parts ->
     Forall (fun x => x = None) parts ->
     generateVisualAsset apiKey sdk prompt0 ref =
       Rejected (ErrorObject "No image data received in response.")).
Proof.
  intros sent. subst sent. unfold generateVisualAsset.
  destruct (Js.truthy apiKey) eqn:Ek; simpl.
  - apply truthy_spec in Ek. split; [| split; [congruence | split]].
    + intros url. destruct (sdk (visualAssetParts prompt0 ref)) as [parts | e].
      * rewrite extractImage_resolved. split.
        -- intros (pre & d & post & -> & H). split; [exact Ek |]. eauto.
        -- intros (_ & pre & d & post & H & H'). injection H as ->. eauto.
      * split; [discriminate |]. intros (_ & pre & d & post & H & _). discriminate.
    + intros _ e ->. reflexivity.
    + intros _ parts -> Hall. apply extractImage_rejected. auto.
  - assert (apiKey = EmptyString) as -> by (destruct apiKey; [reflexivity | discriminate]).
    split; [| split; [reflexivity | split; congruence]].
    intros url. split; [discriminate | intros [H _]; congruence].
Qed.

End GeminiMore.

(** A stored key, an answer whose second part carries the image; and no
    key at all. *)
Lemma visual_asset_result_witness :
  let png := Gemini.mkInline "image/png" "iVBORw0KGgo" in
  let sdk : list Gemini.Part -> Settled (list (option Gemini.InlineData)) :=
    fun _ => Resolved [None; Some png] in
  "k" <> EmptyString /\
  Gemini.generateVisualAsset "k" sdk "A mossy rock" None
    = Resolved "data:image/png;base64,iVBORw0KGgo" /\
  Gemini.generateVisualAsset EmptyString sdk "A mossy rock" None
    = Rejected (ErrorObject "API Key missing").
Proof.
  intros png sdk.
  assert (Hk : "k" <> EmptyString) by discriminate.
  destruct (visual_asset_result "k" sdk "A mossy rock" None) as (Hres & _).
  destruct (visual_asset_result EmptyString sdk "A mossy rock" None) as (_ & Hno & _).
  split; [exact Hk |]. split; [| exact (Hno eq_refl)].
  apply Hres. split; [exact Hk |].
  exists [None], png, []. split; [reflexivity |].
  split; [repeat constructor | reflexivity].
Defined.

(** ** Strings sent to the collaborator *)

Section Payloads.

Implicit Types (s h p u : string) (sep : ascii) (fs : Snapshot) (f : ProjectFile).

Lemma string_app_assoc s1 s2 s3 :
  ((s1 ++ s2) ++ s3)%string = (s1 ++ s2 ++ s3)%string.
Proof. induction s1 as [| ch s1 IH]; simpl; [reflexivity | rewrite IH; reflexivity]. Qed.

Lemma list_ascii_app s1 s2 :
  list_ascii_of_string (s1 ++ s2)%string =
  list_ascii_of_string s1 ++ list_ascii_of_string s2.
Proof. induction s1 as [| ch s1 IH]; simpl; [reflexivity | rewrite IH; reflexivity]. Qed.

Lemma splitOn_not_nil sep s : splitOn sep s <> [].
Proof.
  destruct s as [| ch s]; simpl; [discriminate |].
  destruct (Ascii.eqb ch sep); [discriminate |].
  destruct (splitOn sep s); discriminate.
Qed.

Lemma splitOn_no_sep sep s :
  ~ In sep (list_ascii_of_string s) -> splitOn sep s = [s].
Proof.
  induction s as [| ch s IH]; simpl; intros H; [reflexivity |].
  destruct (Ascii.eqb_spec ch sep) as [E | E]; [exfalso; apply H; left; exact E |].
  rewrite IH; [reflexivity |]. intros Hin. apply H. right. exact Hin.
Qed.

Lemma splitOn_first sep h s :
  ~ In sep (list_ascii_of_string h) ->
  splitOn sep (h ++ String sep s)%string = h :: splitOn sep s.
Proof.
  induction h as [| ch h IH]; simpl; intros H.
  - rewrite Ascii.eqb_refl. reflexivity.
  - destruct (Ascii.eqb_spec ch sep) as [E | E]; [exfalso; apply H; left; exact E |].
    rewrite IH; [reflexivity |]. intros Hin. apply H. right. exact Hin.
Qed.

Lemma splitOn_join sep s :
  String.concat (String sep EmptyString) (splitOn sep s) = s.
Proof.
  induction s as [| ch s IH]; simpl; [reflexivity |].
  destruct (Ascii.eqb_spec ch sep) as [E | E].
  - subst ch. pose proof (splitOn_not_nil sep s) as Hne.
    destruct (splitOn sep s) as [| x xs]; [congruence |].
    simpl in *. rewrite IH. reflexivity.
  - pose proof (splitOn_not_nil sep s) as Hne.
    destruct (splitOn sep s) as [| x xs]; [congruence |].
    destruct xs as [| y ys]; simpl in *; rewrite IH; reflexivity.
Qed.

(** X22. The reference image is sent as the second piece of the selected
    URL cut at its commas, and joining the pieces with commas gives the
    URL back. For a URL of the form header, comma, payload with no other
    comma, a data URL in particular, that piece is the payload; for a URL
    without a comma there is no second piece: the value is [undefined]. *)
Theorem reference_image_payload :
  (forall u, String.concat "," (splitOn comma u) = u) /\
  (forall h p,
     ~ In comma (list_ascii_of_string h) -> ~ In comma (list_ascii_of_string p) ->
     rawBase64Of (Some (h ++ "," ++ p)%string) = Some p) /\
  (forall d,
     ~ In comma (list_ascii_of_string (Gemini.mimeType d)) ->
     ~ In comma (list_ascii_of_string (Gemini.data d)) ->
     rawBase64Of (Some (Gemini.dataUrl d)) = Some (Gemini.data d)) /\
  (forall u, ~ In comma (list_ascii_of_string u) -> rawBase64Of (Some u) = None).
Proof.
  assert (Hsplit : forall h p,
    ~ In comma (list_ascii_of_string h) -> ~ In comma (list_ascii_of_string p) ->
    rawBase64Of (Some (h ++ "," ++ p)%string) = Some p).
  { intros h p Hh Hp. unfold rawBase64Of.
    assert (Ht : Js.truthy (h ++ "," ++ p)%string = true) by (destruct h; reflexivity).
    rewrite Ht. change ("," ++ p)%string with (String comma p).
    rewrite splitOn_first by exact Hh. rewrite splitOn_no_sep by exact Hp. reflexivity. }
  split; [intros u; apply (splitOn_join comma u) |].
  split; [exact Hsplit |]. split.
  - intros d Hm Hd. unfold Gemini.dataUrl.
    replace ("data:" ++ Gemini.mimeType d ++ ";base64," ++ Gemini.data d)%string
      with (("data:" ++ Gemini.mimeType d ++ ";base64") ++ "," ++ Gemini.data d)%string.
    + apply Hsplit; [| exact Hd].
      rewrite !list_ascii_app. rewrite !in_app_iff. intros [H | [H | H]].
      * vm_compute in H. intuition discriminate.
      * exact (Hm H).
      * vm_compute in H. intuition discriminate.
    + rewrite !string_app_assoc. reflexivity.
  - intros u Hu. unfold rawBase64Of. destruct (Js.truthy u); [| reflexivity].
    rewrite splitOn_no_sep by exact Hu. reflexivity.
Qed.

Variable section : ProjectFile -> string.

Lemma fold_sections_prefix fs init :
  exists post,
    fold_left (fun acc f => (acc ++ section f)%string) fs init = (init ++ post)%string.
Proof.
  revert init. induction fs as [| f fs IH]; intros init; simpl.
  - exists EmptyString. induction init as [| ch init IHi]; simpl; congruence.
  - destruct (IH (init ++ section f)%string) as [post Hpost].
    exists (section f ++ post)%string. rewrite Hpost. apply string_app_assoc.
Qed.

Lemma fold_sections_contains fs init f :
  In f fs ->
  exists pre post,
    fold_left (fun acc f => (acc ++ section f)%string) fs init =
    (pre ++ section f ++ post)%string.
Proof.
  revert init. induction fs as [| g fs IH]; intros init Hin; simpl; [contradiction |].
  destruct Hin as [-> | Hin].
  - destruct (fold_sections_prefix fs (init ++ section f)%string) as [post Hpost].
    exists init, post. rewrite Hpost. apply string_app_assoc.
  - apply IH, Hin.
Qed.

End Payloads.

(** The payload of a PNG data URL, and a URL without a comma. *)
Lemma reference_image_payload_witness :
  let png := Gemini.mkInline "image/png" "iVBORw0KGgo" in
  ~ In comma (list_ascii_of_string (Gemini.mimeType png)) /\
  ~ In comma (list_ascii_of_string (Gemini.data png)) /\
  rawBase64Of (Some "data:image/png;base64,iVBORw0KGgo") = Some "iVBORw0KGgo" /\
  ~ In comma (list_ascii_of_string "blob:asset") /\
  rawBase64Of (Some "blob:asset") = None.
Proof.
  intros png.
  assert (Hm : ~ In comma (list_ascii_of_string (Gemini.mimeType png)))
    by (vm_compute; intuition discriminate).
  assert (Hd : ~ In comma (list_ascii_of_string (Gemini.data png)))
    by (vm_compute; intuition discriminate).
  assert (Hb : ~ In comma (list_ascii_of_string "blob:asset"))
    by (vm_compute; intuition discriminate).
  destruct reference_image_payload as (_ & _ & Hurl & Hnone).
  split; [exact Hm |]. split; [exact Hd |].
  split; [exact (Hurl png Hm Hd) |]. split; [exact Hb | exact (Hnone _ Hb)].
Defined.

Section Contexts.

Import Gemini.

Implicit Types (fs : Snapshot) (f : ProjectFile) (a : string).

(** X23. The project context of a code generation is built from the
    files whose id is not the active id, and from those alone: it is the
    empty string exactly when every file carries the active id, and
    otherwise it contains the section, name and content, of each such
    file. The file name given for the active file is never empty: it is
    [unknown_script.gd] when no file carries the active id. *)
Theorem generation_context (fs : Snapshot) (a : string) :
  (forall f, In f (otherFiles fs a) <-> In f fs /\ id f <> a) /\
  (projectContextStr fs a = EmptyString <-> Forall (fun f => id f = a) fs) /\
  (forall f, In f fs -> id f <> a ->
     exists pre post, projectContextStr fs a = (pre ++ fileSection f ++ post)%string) /\
  activeFileName fs a <> EmptyString /\
  (~ In a (ids fs) -> activeFileName fs a = "unknown_script.gd").
Proof.
  split; [intros f; apply (deleteFile_In fs a f) |].
  split; [| split; [| split]].
  - rewrite <- deleteFile_nil_iff. unfold projectContextStr.
    change (otherFiles fs a) with (deleteFile fs a).
    destruct (deleteFile fs a) as [| g rest] eqn:E; [tauto |].
    split; [| discriminate].
    destruct (fold_sections_prefix fileSection (g :: rest)
                ("OTHER PROJECT FILES (Read-Only Context):" ++ Js.nl)%string)
      as [post Hpost].
    rewrite Hpost. discriminate.
  - intros f Hin Hne. unfold projectContextStr.
    assert (Ho : In f (otherFiles fs a)) by (apply (deleteFile_In fs a f); auto).
    destruct (otherFiles fs a) as [| g rest] eqn:E; [contradiction |].
    apply fold_sections_contains, Ho.
  - unfold activeFileName. destruct (findById a fs) as [f |]; [| discriminate].
    unfold Js.or_else. destruct (name f); simpl; discriminate.
  - intros Habs. unfold activeFileName.
    destruct (findById a fs) as [f |] eqn:E; [| reflexivity].
    apply findById_Some in E as [Hin He]. exfalso. apply Habs.
    rewrite <- He. unfold ids. apply List.in_map, Hin.
Qed.

(** X24. The project context of a chat message contains the section of
    every file of the project, the active file included, after its
    header. *)
Theorem chat_context_lists_every_file (fs : Snapshot) (f : ProjectFile) :
  In f fs ->
  (exists pre post, chatContextStr fs = (pre ++ chatSection f ++ post)%string) /\
  (exists post, chatContextStr fs = (("PROJECT FILES:" ++ Js.nl) ++ post)%string).
Proof.
  intros Hin. split.
  - apply fold_sections_contains, Hin.
  - apply fold_sections_prefix.
Qed.

End Contexts.

(** The context sent with a generation on a two-file project whose first
    file is active. *)
Lemma generation_context_witness :
  In fileC [fileA; fileC] /\ id fileC <> "1" /\
  Gemini.projectContextStr [fileA; fileC] "1" =
    ("OTHER PROJECT FILES (Read-Only Context):" ++ Js.nl ++
     "--- FILE: enemy.gd ---" ++ Js.nl ++ "C" ++ Js.nl ++ Js.nl)%string /\
  ~ In "9" (ids [fileA; fileC]) /\
  Gemini.activeFileName [fileA; fileC] "9" = "unknown_script.gd".
Proof.
  assert (Hin : In fileC [fileA; fileC]) by (right; left; reflexivity).
  assert (Hne : id fileC <> "1") by discriminate.
  assert (H9 : ~ In "9" (ids [fileA; fileC])).
  { simpl. intros [E | [E | []]]; discriminate. }
  destruct (generation_context [fileA; fileC] "1") as (_ & _ & Hc & _).
  destruct (generation_context [fileA; fileC] "9") as (_ & _ & _ & _ & Hn).
  destruct (Hc fileC Hin Hne) as (pre & post & Hctx).
  split; [exact Hin |]. split; [exact Hne |].
  split; [reflexivity |]. split; [exact H9 | exact (Hn H9)].
Defined.

(** The context sent with a chat message on the same project. *)
Lemma chat_context_lists_every_file_witness :
  In fileA [fileA; fileC] /\
  exists pre post,
    Gemini.chatContextStr [fileA; fileC] =
    (pre ++ Gemini.chatSection fileA ++ post)%string.
Proof.
  assert (Hin : In fileA [fileA; fileC]) by (left; reflexivity).
  split; [exact Hin |].
  exact (proj1 (chat_context_lists_every_file [fileA; fileC] fileA Hin)).
Defined.

(** ** Late answers and the delete button *)

Section Late.

Variable typeErrorMessage : string.

(** X25. A generated code that arrives after the project has changed is
    applied to the files, the active id and the log of the render in which
    the action was started: the visible list becomes that older list with
    the new content, the log becomes the older log cut at its cursor plus
    this one entry, and whatever was edited or logged in between is gone.
    The active id of the moment is kept, and the cursor again points at
    the visible list. *)
Theorem late_answer_overwrites (p : string) (g : GenMode) (r : GeneratedCodeResponse)
    (cap cur : AppState) (t : ToolsState) (fs : Snapshot) :
  files cap = Some fs ->
  let ui' := handleActionSettle typeErrorMessage (CallGenerateCode p g)
               (Resolved (Some r)) cap (cur, t) in
  let edited := updateFileContent fs (activeFileId cap) (code r) in
  files (fst ui') = Some edited /\
  history (fst ui') = take (historyIndex cap + 1) (history cap) ++ [edited] /\
  history (fst ui') !! historyIndex (fst ui') = Some edited /\
  activeFileId (fst ui') = activeFileId cur /\
  explanation (fst ui') = explanation_of r /\
  loading (snd ui') = false.
Proof.
  intros Hf ui' edited. subst ui' edited. simpl.
  unfold codeUpdateFrom. rewrite Hf. simpl.
  split; [reflexivity |]. split; [reflexivity |]. split; [| auto].
  apply (pushToHistory_lookup (updateFileContent fs (activeFileId cap) (code r)) cap).
Qed.

End Late.

Section DeleteButton.

Implicit Types (s : AppState) (fs : Snapshot) (i : string).

(** X26. The delete buttons and the handler agree. When the buttons are
    hidden (one file or none) the handler refuses every id. When they are
    shown and the ids are distinct, deleting a listed file does not throw,
    leaves exactly one file fewer, none of which carries the id, logs one
    entry, and leaves an active id that names a listed file whenever it
    named one before. *)
Theorem delete_button_and_handler (s : AppState) (fs : Snapshot) :
  files s = Some fs ->
  (deleteShown fs = false -> forall i, handleFileDelete i s = Done s) /\
  (deleteShown fs = true -> NoDup (ids fs) ->
   forall i, In i (ids fs) ->
     exists s' fs',
       handleFileDelete i s = Done s' /\
       files s' = Some fs' /\
       fs' = deleteFile fs i /\
       length fs' + 1 = length fs /\
       ~ In i (ids fs') /\
       history s' = take (historyIndex s + 1) (history s) ++ [fs'] /\
       (In (activeFileId s) (ids fs) -> In (activeFileId s') (ids fs'))).
Proof.
  intros Hf. unfold deleteShown. split.
  - intros Hh i. apply Nat.ltb_ge in Hh. unfold handleFileDelete. rewrite Hf.
    apply Nat.leb_le in Hh. rewrite Hh. reflexivity.
  - intros Hs Hnd i Hin. apply Nat.ltb_lt in Hs.
    destruct (handleFileDelete_many i s fs Hf Hnd) as (f0 & rest & E & Hrun); [lia |].
    rewrite <- E in Hrun. rewrite Hrun.
    assert (Hlen : length (deleteFile fs i) + 1 = length fs)
      by (apply deleteFile_length_present; assumption).
    destruct (String.eqb_spec (activeFileId s) i) as [Ea | Ea].
    + exists (setActiveFileId (id f0) (pushToHistory (deleteFile fs i) s)), (deleteFile fs i).
      split; [reflexivity |]. split; [reflexivity |]. split; [reflexivity |].
      split; [exact Hlen |]. split; [apply deleteFile_gone |].
      split; [reflexivity |]. intros _. simpl. rewrite E. left. reflexivity.
    + exists (pushToHistory (deleteFile fs i) s), (deleteFile fs i).
      split; [reflexivity |]. split; [reflexivity |]. split; [reflexivity |].
      split; [exact Hlen |]. split; [apply deleteFile_gone |].
      split; [reflexivity |]. intros Ha. simpl.
      unfold ids in *. apply List.in_map_iff in Ha as (f & Hid & Hfin).
      apply List.in_map_iff. exists f. split; [exact Hid |].
      apply deleteFile_In. split; [exact Hfin | congruence].
Qed.

End DeleteButton.

(** The buttons at the start, at the end and in the middle of a log. *)
Lemma history_buttons_match_guards_witness :
  undoDisabled initialState = true /\ undo initialState = initialState /\
  redoDisabled initialState = true /\ redo initialState = initialState /\
  undoDisabled midState = false /\ redoDisabled midState = false.
Proof.
  destruct (history_buttons_match_guards initialState) as [Hu Hr].
  assert (H1 : undoDisabled initialState = true) by reflexivity.
  assert (H2 : redoDisabled initialState = true) by reflexivity.
  split; [exact H1 |]. split; [exact (proj1 Hu H1) |].
  split; [exact H2 |]. split; [exact (proj1 Hr H2) |].
  split; reflexivity.
Defined.

(** Two edits of file 1, and edits of files 1 and 2 in both orders. *)
Lemma edits_compose_witness :
  "1" <> "2" /\
  updateFileContent (updateFileContent [fileA; fileC] "1" "x") "1" "y"
    = [withContent "y" fileA; fileC] /\
  updateFileContent (updateFileContent [fileA; fileC] "1" "x") "2" "y"
    = updateFileContent (updateFileContent [fileA; fileC] "2" "y") "1" "x".
Proof.
  assert (Hne : "1" <> "2") by discriminate.
  destruct (edits_compose [fileA; fileC] "1" "2" "x" "y") as [Hsame Hcomm].
  split; [exact Hne |]. split; [rewrite Hsame; reflexivity | exact (Hcomm Hne)].
Defined.

(** A generation is started on the initial project, a file is created
    while the call is pending, and the answer then arrives. *)
Lemma late_answer_overwrites_witness :
  let cur := stateOf (run [FileCreate "enemy.gd" "k3x9q0z1a"] initialState) in
  let r := mkResponse "extends Node2D" "Changed the base class." in
  files initialState = Some INITIAL_FILES /\
  ids <$> files cur = Some ["1"; "2"; "k3x9q0z1a"] /\
  ids <$> files (fst (handleActionSettle "undefined"
                        (CallGenerateCode "Add a dash ability" general)
                        (Resolved (Some r)) initialState (cur, toolsReady)))
    = Some ["1"; "2"] /\
  activeFileId (fst (handleActionSettle "undefined"
                       (CallGenerateCode "Add a dash ability" general)
                       (Resolved (Some r)) initialState (cur, toolsReady)))
    = "k3x9q0z1a".
Proof.
  intros cur r.
  assert (Hf : files initialState = Some INITIAL_FILES) by reflexivity.
  destruct (late_answer_overwrites "undefined" "Add a dash ability" general r
              initialState cur toolsReady INITIAL_FILES Hf) as (Hfiles & _ & _ & Ha & _).
  split; [exact Hf |]. split; [vm_compute; reflexivity |].
  split; [rewrite Hfiles; reflexivity | rewrite Ha; vm_compute; reflexivity].
Defined.

(** The single-file project, and file 1 of the initial project. *)
Lemma delete_button_and_handler_witness :
  files (seedState [fileA] "1") = Some [fileA] /\
  deleteShown [fileA] = false /\
  handleFileDelete "1" (seedState [fileA] "1") = Done (seedState [fileA] "1") /\
  files initialState = Some INITIAL_FILES /\
  deleteShown INITIAL_FILES = true /\
  NoDup (ids INITIAL_FILES) /\
  In "1" (ids INITIAL_FILES) /\
  exists s', handleFileDelete "1" initialState = Done s' /\
             ids <$> files s' = Some ["2"].
Proof.
  assert (Hf1 : files (seedState [fileA] "1") = Some [fileA]) by reflexivity.
  assert (Hh : deleteShown [fileA] = false) by reflexivity.
  assert (Hf : files initialState = Some INITIAL_FILES) by reflexivity.
  assert (Hs : deleteShown INITIAL_FILES = true) by reflexivity.
  assert (Hnd : NoDup (ids INITIAL_FILES)).
  { destruct initialState_projectInv as (_ & _ & H).
    apply Forall_singleton in H as [_ H]. exact H. }
  assert (Hin : In "1" (ids INITIAL_FILES)) by (left; reflexivity).
  destruct (delete_button_and_handler (seedState [fileA] "1") [fileA] Hf1) as [Hhid _].
  destruct (delete_button_and_handler initialState INITIAL_FILES Hf) as [_ Hshown].
  destruct (Hshown Hs Hnd "1" Hin) as (s' & fs' & Hd & Hfs & E & _).
  split; [exact Hf1 |]. split; [exact Hh |]. split; [exact (Hhid Hh "1") |].
  split; [exact Hf |]. split; [exact Hs |]. split; [exact Hnd |]. split; [exact Hin |].
  exists s'. split; [exact Hd |]. rewrite Hfs, E. reflexivity.
Defined.
